(** * django-modeltrans: field-name codec, virtual-field resolution and
      schema wiring.

    A shallow embedding of [modeltrans/utils.py], [modeltrans/fields.py] and
    [modeltrans/translator.py], followed by the properties of the
    specification that concern them. *)

From Stdlib Require Import ZArith Ascii String Lia.
From stdpp Require Import base option list strings gmap fin_maps.

Local Open Scope Z_scope.
#[local] Set Warnings "-register-all".

(** ** Python strings

    The handful of [str] methods the package relies on, over [string]. *)

Module PyStr.

(** [sub in s] for a one-character [sub]. *)
Fixpoint contains_char (c : ascii) (s : string) : bool :=
  match s with
  | EmptyString => false
  | String a t => if Ascii.eqb a c then true else contains_char c t
  end.

(** [s.rfind(sub)]: the highest index at which [sub] starts in [s], or -1. *)
Fixpoint rfind (sub s : string) : Z :=
  match s with
  | EmptyString => if String.eqb sub EmptyString then 0 else -1
  | String _ t =>
      let r := rfind sub t in
      if 0 <=? r then r + 1
      else if String.prefix sub s then 0 else -1
  end.

(** Normalisation of one bound of a slice of a sequence of length [len]:
    a negative bound counts from the end, and the bound is then clipped
    to [0, len]. *)
Definition slice_index (len i : Z) : Z :=
  let i := if i <? 0 then i + len else i in
  Z.max 0 (Z.min len i).

(** [s[lo:hi]]; [None] stands for an omitted bound. *)
Definition slice (s : string) (lo hi : option Z) : string :=
  let len := Z.of_nat (String.length s) in
  let lo := match lo with Some i => slice_index len i | None => 0 end in
  let hi := match hi with Some i => slice_index len i | None => len end in
  String.substring (Z.to_nat lo) (Z.to_nat (hi - lo)) s.

(** The scan of [s.replace(old, new)] for a non-empty [old]: occurrences are
    taken from left to right and do not overlap; [skip] counts the
    characters of the occurrence just replaced that are still to be
    dropped. *)
Fixpoint replace_scan (old new s : string) (skip : nat) : string :=
  match s with
  | EmptyString => EmptyString
  | String c t =>
      match skip with
      | S k => replace_scan old new t k
      | O =>
          if String.prefix old s
          then new +:+ replace_scan old new t (String.length old - 1)
          else String c (replace_scan old new t O)
      end
  end.

(** With an empty [old], [new] is put before every character and at the
    end. *)
Fixpoint replace_empty (new s : string) : string :=
  match s with
  | EmptyString => new
  | String c t => new +:+ String c (replace_empty new t)
  end.

(** [s.replace(old, new)]. *)
Definition replace (s old new : string) : string :=
  match old with
  | EmptyString => replace_empty new s
  | String _ _ => replace_scan old new s O
  end.

(** [s.upper()] on the ASCII letters. *)
Definition upper_char (c : ascii) : ascii :=
  let n := nat_of_ascii c in
  if ((97 <=? n) && (n <=? 122))%nat then ascii_of_nat (n - 32) else c.

Fixpoint upper (s : string) : string :=
  match s with
  | EmptyString => EmptyString
  | String c t => String (upper_char c) (upper t)
  end.

End PyStr.

(** ** Values *)

(** The value of a [CharField]/[TextField] attribute or of a bag entry:
    a [str] or [None]. *)
Inductive pyval :=
| PyNone
| PyStr (s : string).

#[global] Instance pyval_eq_dec : EqDecision pyval.
Proof. solve_decision. Defined.

(** Python truthiness: [None] and the empty string are falsy. *)
Definition truthy (v : pyval) : bool :=
  match v with
  | PyNone => false
  | PyStr s => negb (String.eqb s "")
  end.

(** Truthiness of an optional name ([None] or [str]). *)
Definition truthy_name (n : option string) : bool :=
  match n with
  | None => false
  | Some s => negb (String.eqb s "")
  end.

(** ** modeltrans/conf.py

    The settings the package reads. [conf.py] is not part of the sources at
    hand: its functions are the fields of this record, together with the
    two values of [django.utils.translation] that the package uses. *)

Module Conf.

Record t := {
  (** [django.utils.translation.get_language()] *)
  django_get_language : option string;
  (** [django.utils.translation.gettext(s)] *)
  gettext : string -> string;
  (** [get_available_languages(include_default)] *)
  get_available_languages : bool -> list string;
  (** [get_default_language()] *)
  get_default_language : string;
  (** [get_fallback_chain(lang)] *)
  get_fallback_chain : string -> list string;
  (** the module-level [GLOBAL_DEFAULT_LANGUAGE] of fields.py, the value of
      [get_default_language()] when that module was imported *)
  GLOBAL_DEFAULT_LANGUAGE : string
}.

End Conf.

(** ** modeltrans/utils.py *)

Module Utils.

(** [get_language()] *)
Definition get_language (cfg : Conf.t) : string :=
  match Conf.django_get_language cfg with
  | Some lang =>
      if bool_decide (lang ∈ Conf.get_available_languages cfg true) then lang
      else Conf.get_default_language cfg
  | None => Conf.get_default_language cfg
  end.

(** [split_translated_fieldname(field_name)] *)
Definition split_translated_fieldname (field_name : string) : string * string :=
  let _pos := PyStr.rfind "_" field_name in
  (PyStr.slice field_name (Some 0) (Some _pos),
   PyStr.slice field_name (Some (_pos + 1)) None).

(** [build_localized_fieldname(field_name, lang)] *)
Definition build_localized_fieldname (field_name lang : string) : string :=
  let lang := if String.eqb lang "id" then "ind" else lang in
  field_name +:+ "_" +:+ PyStr.replace lang "-" "_".

End Utils.

(** ** Schema elements *)

(** Which of the supported classes a field is an instance of. *)
Inductive FieldKind := KChar | KText | KOther.

(** A concrete model field. *)
Record Field := {
  field_name : string;
  field_class : string;          (* [__class__.__name__] *)
  field_kind : FieldKind;
  max_length : option Z;
  verbose_name : string
}.

(** The value of a field's entry in a [required_languages] dict: a tuple,
    list or set of codes, or any other object, given by what [lang in obj]
    yields ([None]: the test raises [TypeError]). *)
Inductive ReqItem :=
| ItemSeq (langs : list string)
| ItemOther (contains : string -> option bool).

(** A [required_languages] argument: a tuple, list or set of codes, a dict
    from field names to entries, or any other object. *)
Inductive ReqValue :=
| ReqSeq (langs : list string)
| ReqDict (items : list (string * ReqItem))
| ReqOther (contains : string -> option bool).

(** [bool(required_languages)]; an object other than a container is stored
    by [TranslationField.__init__] only if truthy. *)
Definition req_truthy (r : ReqValue) : bool :=
  match r with
  | ReqSeq l => match l with [] => false | _ => true end
  | ReqDict items => match items with [] => false | _ => true end
  | ReqOther _ => true
  end.

(** [lang in item] *)
Definition item_contains (lang : string) (r : ReqItem) : option bool :=
  match r with
  | ItemSeq l => Some (bool_decide (lang ∈ l))
  | ItemOther contains => contains lang
  end.

(** [d.get(k, ())] on the items of a dict. *)
Fixpoint items_get (items : list (string * ReqItem)) (k : string) : ReqItem :=
  match items with
  | [] => ItemSeq []
  | (k', v) :: rest => if String.eqb k' k then v else items_get rest k
  end.

(** [TranslationField], the descriptor of the bag. *)
Record TranslationField := {
  fields : list string;
  tf_default_language_field : option string;
  required_languages : ReqValue;
  virtual_fields : bool;
  fallback_language_field : option string
}.

(** [TranslationField.__init__]: [fields or ()], [required_languages or ()]. *)
Definition TranslationField_init (fields : option (list string))
    (default_language_field : option string)
    (required_languages : option ReqValue) (virtual_fields : bool)
    (fallback_language_field : option string) : TranslationField :=
  {| fields := default [] fields;
     tf_default_language_field := default_language_field;
     required_languages :=
       match required_languages with
       | Some r => if req_truthy r then r else ReqSeq []
       | None => ReqSeq []
       end;
     virtual_fields := virtual_fields;
     fallback_language_field := fallback_language_field |}.

(** [TranslatedVirtualField], a synthetic accessor. [name] is the attribute
    name given by [contribute_to_class]. *)
Record TranslatedVirtualField := {
  original_field : Field;
  language : option string;
  default_language_field : option string;
  blank : bool;
  null : bool;
  name : string;
  tvf_verbose_name : string
}.

Definition original_name (self : TranslatedVirtualField) : string :=
  field_name (original_field self).

(** A record (model instance): the bag descriptor of its model, its
    physical attributes, its bag ([None] for the Python [None]) and whether
    "i18n" is among [get_deferred_fields()].  [attrs] gives the value an
    attribute read yields, and [i18n] the value the bag attribute has once
    loaded. *)
Record Instance := {
  meta_i18n : TranslationField;
  attrs : string -> pyval;
  i18n : option (gmap string pyval);
  i18n_deferred : bool
}.

Definition getattr (instance : Instance) (n : string) : pyval :=
  attrs instance n.

Definition setattr (instance : Instance) (n : string) (v : pyval) : Instance :=
  {| meta_i18n := meta_i18n instance;
     attrs := fun k => if String.eqb k n then v else attrs instance k;
     i18n := i18n instance;
     i18n_deferred := i18n_deferred instance |}.

(** Assignment to [instance.i18n]; the attribute is then loaded. *)
Definition set_i18n (instance : Instance) (bag : option (gmap string pyval)) : Instance :=
  {| meta_i18n := meta_i18n instance;
     attrs := attrs instance;
     i18n := bag;
     i18n_deferred := false |}.

(** A read of [instance.i18n]: a deferred attribute is fetched on access and
    is no longer deferred afterwards. *)
Definition load_i18n (instance : Instance) : Instance :=
  set_i18n instance (i18n instance).

(** [if instance.i18n is None: instance.i18n = {}] *)
Definition init_bag (instance : Instance) : Instance :=
  match i18n instance with
  | None => set_i18n instance (Some ∅)
  | Some _ => instance
  end.

(** The bag of a record whose [i18n] is not [None]. *)
Definition bag (instance : Instance) : gmap string pyval :=
  default ∅ (i18n instance).

(** [d.get(k)] *)
Definition dict_get (d : gmap string pyval) (k : string) : pyval :=
  default PyNone (d !! k).

(** Modelled from the spec: [utils.get_instance_field_value(instance, path)]
    is missing from utils.py; it is "relation traversal to read a named
    field possibly through foreign keys", the value of the field at [path]
    on the record. *)
Definition get_instance_field_value (instance : Instance) (path : string) : pyval :=
  attrs instance path.

(** What a model's [_meta.get_field(name)] can yield. *)
Inductive ModelField :=
| ConcreteField (f : Field)
| I18nField (f : TranslationField)
| VirtualField (f : TranslatedVirtualField).

(** The optional class attribute [i18n_field_params], a dict that may
    override arguments of the [TranslationField]. *)
Record I18nFieldParams := {
  param_default_language_field : option (option string);
  param_fields : option (list string);
  param_required_languages : option ReqValue
}.

(** A model class, as far as schema wiring reads and changes it. *)
Record Model := {
  __name__ : string;
  object_name : string;                       (* [_meta.object_name] *)
  meta_fields : gmap string ModelField;       (* [_meta.get_field] *)
  class_attrs : gset string;                  (* [hasattr(Model, name)] *)
  i18n_field_params : option I18nFieldParams
}.

(** ** Exceptions *)

(** The local variable [field] of [validate]: a name taken from
    [i18n_field.fields], or the field object found for
    [fallback_language_field]. *)
Inductive LocalField :=
| LocalName (name : string)
| LocalObject (f : ModelField).

(** What an [ImproperlyConfigured] is raised for (the message of each
    [raise] in the package, with the values it is formatted from). *)
Inductive config_error :=
| UnsupportedField (class_name : string)
| BadI18nName (class_name : string)
| FieldsItemNotAField (item : string)
| FallbackLanguageFieldMissing (name : string)
| RequiredLanguagesUnknownField (field : LocalField) (model_name : string)
| RequiredLanguagesItemNotSequence (fieldname : string)
| RequiredLanguagesWrongType
| LanguageNotAvailable (lang model_name : string)
| FieldAlreadyExists (object_name field_name : string).

Inductive exn :=
| ValueError (msg : string)
| ImproperlyConfigured (why : config_error)
| FieldDoesNotExist (name : string)
| AttributeError (name : string)
| UnboundLocalError (var : string)
| TypeError.

Inductive result (A : Type) :=
| Ok (a : A)
| Raise (e : exn).
Arguments Ok {A} a.
Arguments Raise {A} e.

(** ** modeltrans/fields.py *)

Module Fields.

(** The field instance [output_field()] builds: [Field()] or
    [Field(max_length=...)]. *)
Inductive OutputField :=
| OutField (cls : string)
| OutFieldMaxLength (cls : string) (max_length : option Z).

(** The [language] argument of [_localized_lookup]: a code, or [F(field)]
    for the per-row fallback language. *)
Inductive Language :=
| LangCode (code : string)
| LangF (field : string).

(** Query expressions, and the plain [str] that names a column. *)
Inductive Expr :=
| Str (s : string)
| F (name : Expr)
| KeyTextTransform (key_name lookup : string)
| FallbackTransform (field_prefix : string) (language : Expr) (i18n_lookup : string)
| Case (when_field when_value then_ : string) (default : Expr)
       (output_field : OutputField)
| Cast (expression : Expr) (output_field : OutputField)
| Coalesce (expressions : list Expr) (output_field : OutputField).

Definition deferred_msg : string :=
  "Getting translated values on a model fetched with defer('i18n') is not supported.".

Section WithConf.
Context (cfg : Conf.t).

(** [translated_field_factory(original_field, language,
    default_language_field, blank=..., null=...)]; the new field starts
    with the attributes of [original_field]. *)
Definition translated_field_factory (original_field : Field)
    (language default_language_field : option string) (blank null : bool)
    : result TranslatedVirtualField :=
  match field_kind original_field with
  | KOther => Raise (ImproperlyConfigured (UnsupportedField (field_class original_field)))
  | _ =>
      Ok {| original_field := original_field;
            language := language;
            default_language_field := default_language_field;
            blank := blank;
            null := null;
            name := field_name original_field;
            tvf_verbose_name := verbose_name original_field |}
  end.

(** [self.get_language()] *)
Definition get_language (self : TranslatedVirtualField) : string :=
  match language self with
  | Some l => l
  | None => Utils.get_language cfg
  end.

(** [self.get_field_name()] *)
Definition get_field_name (self : TranslatedVirtualField) : string :=
  let lang := match language self with
              | None => "i18n"
              | Some _ => get_language self
              end in
  Utils.build_localized_fieldname (original_name self) lang.

(** [self.contribute_to_class(cls, name)] *)
Definition contribute_to_class (self : TranslatedVirtualField) (cls : Model)
    (name : string) : Model :=
  let translated_field_name := Conf.gettext cfg (verbose_name (original_field self)) in
  let translated_field_name :=
    match language self with
    | Some l => translated_field_name +:+ " (" +:+ PyStr.upper l +:+ ")"
    | None => translated_field_name
    end in
  let self := {| original_field := original_field self;
                 language := language self;
                 default_language_field := default_language_field self;
                 blank := blank self;
                 null := null self;
                 name := name;
                 tvf_verbose_name := translated_field_name |} in
  {| __name__ := __name__ cls;
     object_name := object_name cls;
     meta_fields := <[name := VirtualField self]> (meta_fields cls);
     class_attrs := {[name]} ∪ class_attrs cls;
     i18n_field_params := i18n_field_params cls |}.

(** [self.get_default_language(instance)] *)
Definition get_default_language (self : TranslatedVirtualField)
    (instance : Instance) : pyval :=
  if negb (truthy_name (default_language_field self))
  then PyStr (Conf.GLOBAL_DEFAULT_LANGUAGE cfg)
  else get_instance_field_value instance (default "" (default_language_field self)).

(** [self.get_instance_fallback_chain(instance, language)] *)
Definition get_instance_fallback_chain (self : TranslatedVirtualField)
    (instance : Instance) (language : string) : list string :=
  let default := Conf.get_fallback_chain cfg language in
  let i18n_field := meta_i18n instance in
  match fallback_language_field i18n_field with
  | Some f =>
      if negb (String.eqb f "") then
        match get_instance_field_value instance f with
        | PyStr record_fallback_language =>
            if truthy (PyStr record_fallback_language)
            then record_fallback_language :: default
            else default
        | PyNone => default
        end
      else default
  | None => default
  end.

(** The loop of [__get__] over the fallback chain: [Some v] when the loop
    returns [v], [None] when it runs to its end. *)
Fixpoint walk_chain (original_name : string) (original_value default_language : pyval)
    (i18n : gmap string pyval) (chain : list string) : option pyval :=
  match chain with
  | [] => None
  | fallback_language :: rest =>
      if bool_decide (PyStr fallback_language = default_language) then
        if truthy original_value then Some original_value
        else walk_chain original_name original_value default_language i18n rest
      else
        let field_name := Utils.build_localized_fieldname original_name fallback_language in
        match i18n !! field_name with
        | Some v =>
            if truthy v then Some (dict_get i18n field_name)
            else walk_chain original_name original_value default_language i18n rest
        | None => walk_chain original_name original_value default_language i18n rest
        end
  end.

(** [self.__get__(instance)]: the value returned and the record afterwards
    (the bag of the record may have been initialised). *)
Definition __get__ (self : TranslatedVirtualField) (instance : option Instance)
    : result (pyval * option Instance) :=
  match instance with
  | None => Ok (PyNone, None)
  | Some instance =>
      if i18n_deferred instance then Raise (ValueError deferred_msg)
      else
        let self_language := language self in
        let language := get_language self in
        let original_value := getattr instance (original_name self) in
        let default_language := get_default_language self instance in
        if bool_decide (PyStr language = default_language) && truthy original_value
        then Ok (original_value, Some instance)
        else
          let instance := init_bag instance in
          let field_name := Utils.build_localized_fieldname (original_name self) language in
          match self_language with
          | Some _ => Ok (dict_get (bag instance) field_name, Some instance)
          | None =>
              match walk_chain (original_name self) original_value default_language
                      (bag instance)
                      (language :: get_instance_fallback_chain self instance language) with
              | Some v => Ok (v, Some instance)
              | None => Ok (getattr instance (original_name self), Some instance)
              end
          end
  end.

(** [self.__set__(instance, value)]: the record afterwards. *)
Definition __set__ (self : TranslatedVirtualField) (instance : Instance)
    (value : pyval) : Instance :=
  let instance := init_bag (load_i18n instance) in
  let language := get_language self in
  let default_language := get_default_language self instance in
  if bool_decide (PyStr language = default_language)
  then setattr instance (original_name self) value
  else
    let field_name := Utils.build_localized_fieldname (original_name self) language in
    match value with
    | PyNone => set_i18n instance (Some (delete field_name (bag instance)))
    | _ => set_i18n instance (Some (<[field_name := value]> (bag instance)))
    end.

(** [self.output_field()] *)
Definition output_field (self : TranslatedVirtualField) : OutputField :=
  let Field := field_class (original_field self) in
  match field_kind (original_field self) with
  | KChar => OutFieldMaxLength Field (max_length (original_field self))
  | _ => OutField Field
  end.

(** [language == GLOBAL_DEFAULT_LANGUAGE]; an [F] object is not equal to a
    [str]. *)
Definition is_global_default (language : Language) : bool :=
  match language with
  | LangCode code => String.eqb code (Conf.GLOBAL_DEFAULT_LANGUAGE cfg)
  | LangF _ => false
  end.

(** [self._localized_lookup(language, bare_lookup)] *)
Definition _localized_lookup (self : TranslatedVirtualField) (language : Language)
    (bare_lookup : string) : Expr :=
  if negb (truthy_name (default_language_field self)) && is_global_default language
  then Str (PyStr.replace bare_lookup (name self) (original_name self))
  else
    let i18n_lookup := PyStr.replace bare_lookup (name self) "i18n" in
    match language with
    | LangF f =>
        let field_prefix := Utils.build_localized_fieldname (original_name self) "" in
        FallbackTransform field_prefix (F (Str f)) i18n_lookup
    | LangCode code =>
        if truthy_name (default_language_field self) then
          let default_value_field :=
            PyStr.replace bare_lookup (name self) (original_name self) in
          Case (default "" (default_language_field self)) code default_value_field
               (KeyTextTransform
                  (Utils.build_localized_fieldname (original_name self) code)
                  i18n_lookup)
               (output_field self)
        else
          KeyTextTransform
            (Utils.build_localized_fieldname (original_name self) code) i18n_lookup
    end.

(** [self.as_expression(bare_lookup, fallback)]; [i18n_field] is
    [self.model._meta.get_field("i18n")]. *)
Definition as_expression (self : TranslatedVirtualField) (i18n_field : TranslationField)
    (bare_lookup : string) (fallback : bool) : Expr :=
  let language := get_language self in
  if negb (truthy_name (default_language_field self))
     && String.eqb language (Conf.GLOBAL_DEFAULT_LANGUAGE cfg)
  then F (_localized_lookup self (LangCode language) bare_lookup)
  else if negb fallback then
    let i18n_lookup := _localized_lookup self (LangCode language) bare_lookup in
    Cast i18n_lookup (output_field self)
  else
    let fallback_chain := Conf.get_fallback_chain cfg language in
    let lookups := [_localized_lookup self (LangCode language) bare_lookup] in
    let lookups :=
      if truthy_name (fallback_language_field i18n_field)
      then lookups ++ [_localized_lookup self
                         (LangF (default "" (fallback_language_field i18n_field)))
                         bare_lookup]
      else lookups in
    let lookups :=
      lookups ++ map (fun fallback_language =>
                        _localized_lookup self (LangCode fallback_language) bare_lookup)
                     fallback_chain in
    let lookups :=
      lookups ++ [Str (PyStr.replace bare_lookup (name self) (original_name self))] in
    Coalesce lookups (output_field self).

End WithConf.

End Fields.

(** ** modeltrans/translator.py *)

Module Translator.

(** Schema wiring changes the model class and may raise: a computation
    yields a result and the class as it is at that point. *)
Definition M (A : Type) : Type := Model -> result A * Model.

Definition ret {A} (a : A) : M A := fun m => (Ok a, m).
Definition raise {A} (e : exn) : M A := fun m => (Raise e, m).
Definition bind {A B} (c : M A) (k : A -> M B) : M B :=
  fun m => match c m with
           | (Ok a, m') => k a m'
           | (Raise e, m') => (Raise e, m')
           end.
Definition get : M Model := fun m => (Ok m, m).
Definition put (m : Model) : M unit := fun _ => (Ok tt, m).
Definition lift {A} (r : result A) : M A := fun m => (r, m).

Notation "x <- c ;; k" := (bind c (fun x => k))
  (at level 100, c at next level, right associativity).
Notation "c ;;; k" := (bind c (fun _ => k))
  (at level 100, right associativity).

(** What the module takes from [modeltrans/manager.py] and from the part of
    [utils.py] that is not at hand: [get_model_field(Model, path)], and the
    patching of the managers ([add_manager]), of the constructor
    ([patch_constructor]) and of [Meta.ordering]
    ([translate_meta_ordering]), which go through [MultilingualManager] and
    its queryset. *)
Record Env := {
  get_model_field : Model -> string -> option ModelField;
  add_manager : M unit;
  patch_constructor : M unit;
  translate_meta_ordering : M unit
}.

(** A model field seen through the attributes a translated field copies
    from it: a virtual field is an instance of the class of its original
    field, the bag is a [JSONField]. *)
Definition as_field (f : ModelField) : Field :=
  match f with
  | ConcreteField f => f
  | I18nField _ =>
      {| field_name := "i18n"; field_class := "TranslationField";
         field_kind := KOther; max_length := None; verbose_name := "i18n" |}
  | VirtualField v =>
      {| field_name := name v;
         field_class := "Translated" +:+ field_class (original_field v);
         field_kind := field_kind (original_field v);
         max_length := max_length (original_field v);
         verbose_name := tvf_verbose_name v |}
  end.

Section WithConf.
Context (cfg : Conf.t) (env : Env).

(** [get_i18n_field(Model)] *)
Definition get_i18n_field (Model : Model) : option TranslationField :=
  match meta_fields Model !! "i18n" with
  | Some (I18nField i18n_field) => Some i18n_field
  | _ => None
  end.

(** [check_languages(languages, model)] *)
Fixpoint check_languages (languages : list string) (model : Model) : result unit :=
  match languages with
  | [] => Ok tt
  | lang :: rest =>
      if bool_decide (lang ∈ Conf.get_available_languages cfg true)
      then check_languages rest model
      else Raise (ImproperlyConfigured (LanguageNotAvailable lang (__name__ model)))
  end.

(** The first loop of [validate]; yields the local [field] as the loop
    leaves it. *)
Fixpoint validate_fields (Model : Model) (fields : list string)
    (field : option LocalField) : result (option LocalField) :=
  match fields with
  | [] => Ok field
  | f :: rest =>
      match meta_fields Model !! f with
      | Some _ => validate_fields Model rest (Some (LocalName f))
      | None => Raise (ImproperlyConfigured (FieldsItemNotAField f))
      end
  end.

(** The loop of [validate] over the items of a [required_languages] dict. *)
Fixpoint validate_required_items (Model : Model) (i18n_field : TranslationField)
    (field : option LocalField) (items : list (string * ReqItem)) : result unit :=
  match items with
  | [] => Ok tt
  | (fieldname, languages) :: rest =>
      if negb (bool_decide (fieldname ∈ fields i18n_field)) then
        match field with
        | Some field =>
            Raise (ImproperlyConfigured
                     (RequiredLanguagesUnknownField field (__name__ Model)))
        | None => Raise (UnboundLocalError "field")
        end
      else
        match languages with
        | ItemOther _ =>
            Raise (ImproperlyConfigured (RequiredLanguagesItemNotSequence fieldname))
        | ItemSeq languages =>
            match check_languages languages Model with
            | Ok _ => validate_required_items Model i18n_field field rest
            | Raise e => Raise e
            end
        end
  end.

(** [validate(Model)] *)
Definition validate (Model : Model) : result unit :=
  match meta_fields Model !! "i18n" with
  | None => Raise (FieldDoesNotExist "i18n")
  | Some (ConcreteField _) | Some (VirtualField _) => Raise (AttributeError "fields")
  | Some (I18nField i18n_field) =>
      match validate_fields Model (fields i18n_field) None with
      | Raise e => Raise e
      | Ok field =>
          let fallback :=
            if truthy_name (fallback_language_field i18n_field) then
              let path := default "" (fallback_language_field i18n_field) in
              match get_model_field env Model path with
              | None => Raise (ImproperlyConfigured (FallbackLanguageFieldMissing path))
              | Some f => Ok (Some (LocalObject f))
              end
            else Ok field in
          match fallback with
          | Raise e => Raise e
          | Ok field =>
              if req_truthy (required_languages i18n_field) then
                match required_languages i18n_field with
                | ReqSeq required_languages => check_languages required_languages Model
                | ReqDict items => validate_required_items Model i18n_field field items
                | ReqOther _ => Raise (ImproperlyConfigured RequiredLanguagesWrongType)
                end
              else Ok tt
          end
      end
  end.

(** [raise_if_field_exists(Model, field_name)] *)
Definition raise_if_field_exists (Model : Model) (field_name : string) : result unit :=
  if negb (bool_decide (field_name ∈ class_attrs Model)) then Ok tt
  else
    match meta_fields Model !! field_name with
    | None => Ok tt
    | Some _ =>
        Raise (ImproperlyConfigured (FieldAlreadyExists (object_name Model) field_name))
    end.

(** The three statements that end every creation of a virtual field:
    build it, check its name, add it to the class. *)
Definition add_field (original_field : Field) (language default_language_field : option string)
    (blank null : bool) : M unit :=
  field <- lift (Fields.translated_field_factory original_field language
                   default_language_field blank null) ;;
  Model <- get ;;
  lift (raise_if_field_exists Model (Fields.get_field_name cfg field)) ;;;
  put (Fields.contribute_to_class cfg field Model (Fields.get_field_name cfg field)).

(** The inner loop of [add_virtual_fields], one field per language. *)
Fixpoint add_language_fields (original_field : Field)
    (default_language_field : option string) (field_required_languages : ReqItem)
    (languages : list string) : M unit :=
  match languages with
  | [] => ret tt
  | language :: rest =>
      match item_contains language field_required_languages with
      | None => raise TypeError
      | Some required =>
          let blank_allowed := negb required in
          add_field original_field (Some language) default_language_field
            blank_allowed blank_allowed ;;;
          add_language_fields original_field default_language_field
            field_required_languages rest
      end
  end.

(** The body of the outer loop of [add_virtual_fields]. *)
Definition add_virtual_fields_for (default_language_field : option string)
    (required_languages : ReqValue) (field_name : string) : M unit :=
  let field_required_languages :=
    match required_languages with
    | ReqDict items => items_get items field_name
    | ReqSeq langs => ItemSeq langs
    | ReqOther contains => ItemOther contains
    end in
  Model <- get ;;
  match meta_fields Model !! field_name with
  | None => raise (FieldDoesNotExist field_name)
  | Some f =>
      let original_field := as_field f in
      add_field original_field None default_language_field true true ;;;
      add_field_for_global_default_language <-
        (if truthy_name default_language_field then ret true
         else
           add_field original_field (Some (Conf.get_default_language cfg)) None
             true true ;;;
           ret false) ;;
      add_language_fields original_field default_language_field
        field_required_languages
        (Conf.get_available_languages cfg add_field_for_global_default_language)
  end.

(** [add_virtual_fields(Model, default_language_field, fields,
    required_languages)] *)
Fixpoint add_virtual_fields (default_language_field : option string)
    (fields : list string) (required_languages : ReqValue) : M unit :=
  match fields with
  | [] => ret tt
  | field_name :: rest =>
      add_virtual_fields_for default_language_field required_languages field_name ;;;
      add_virtual_fields default_language_field rest required_languages
  end.

(** [translate_model(Model)]; [get_i18n_field_param] is unfolded for each of
    the three arguments it is called for. *)
Definition translate_model : M unit :=
  Model <- get ;;
  match get_i18n_field Model with
  | None => ret tt
  | Some i18n_field =>
      if negb (virtual_fields i18n_field) then ret tt
      else
        lift (validate Model) ;;;
        add_manager env ;;;
        Model <- get ;;
        let params := i18n_field_params Model in
        let default_language_field :=
          match params ≫= param_default_language_field with
          | Some v => v
          | None => tf_default_language_field i18n_field
          end in
        let fields_to_translate :=
          match params ≫= param_fields with
          | Some v => v
          | None => fields i18n_field
          end in
        let required_languages_ :=
          match params ≫= param_required_languages with
          | Some v => v
          | None => required_languages i18n_field
          end in
        add_virtual_fields default_language_field fields_to_translate
          required_languages_ ;;;
        patch_constructor env ;;;
        translate_meta_ordering env
  end.

End WithConf.

End Translator.

(** ** The specification's wording of the operations *)

Module Spec.

(** "[normalize] replaces [-] with [_] and remaps [id -> ind]". *)
Fixpoint dash_to_underscore (s : string) : string :=
  match s with
  | EmptyString => EmptyString
  | String c t =>
      String (if Ascii.eqb c "-" then "_"%char else c) (dash_to_underscore t)
  end.

Definition normalize (language : string) : string :=
  let l := dash_to_underscore language in
  if String.eqb l "id" then "ind" else l.

(** "[encode(base_field, language)] returns
    [base_field + "_" + normalize(language)]". *)
Definition encode (base_field language : string) : string :=
  base_field +:+ "_" +:+ normalize language.

(** What one candidate language of the fallback order reads: the base field
    if the candidate is the record's default language, else the entry of
    the bag ([None] if there is none). *)
Definition candidate_value (base_field : string) (base_value default_language : pyval)
    (bag : gmap string pyval) (candidate : string) : pyval :=
  if bool_decide (PyStr candidate = default_language) then base_value
  else dict_get bag (Utils.build_localized_fieldname base_field candidate).

(** "The effective lookup order is [candidates], then base field, with
    first truthy hit returned". *)
Fixpoint first_truthy_hit (base_field : string) (base_value default_language : pyval)
    (bag : gmap string pyval) (candidates : list string) : pyval :=
  match candidates with
  | [] => base_value
  | candidate :: rest =>
      let v := candidate_value base_field base_value default_language bag candidate in
      if truthy v then v
      else first_truthy_hit base_field base_value default_language bag rest
  end.

Section Lookups.
Context (cfg : Conf.t) (self : TranslatedVirtualField) (bare_lookup : string).

(** The base field's own column, and the bag, on the lookup path. *)
Definition base_column : string :=
  PyStr.replace bare_lookup (name self) (original_name self).
Definition bag_path : string :=
  PyStr.replace bare_lookup (name self) "i18n".

(** The lookup of one static language: with a per-record default-language
    field, "if the record's default-language field equals this candidate
    language, use the base column; else extract this candidate's key from
    the bag"; without one, the base column for the global default language
    and the key extraction for any other. *)
Definition static_lookup (candidate : string) : Fields.Expr :=
  let extraction :=
    Fields.KeyTextTransform
      (Utils.build_localized_fieldname (original_name self) candidate) bag_path in
  match default_language_field self with
  | Some dlf =>
      if String.eqb dlf "" then
        if String.eqb candidate (Conf.GLOBAL_DEFAULT_LANGUAGE cfg)
        then Fields.Str base_column else extraction
      else Fields.Case dlf candidate base_column extraction (Fields.output_field self)
  | None =>
      if String.eqb candidate (Conf.GLOBAL_DEFAULT_LANGUAGE cfg)
      then Fields.Str base_column else extraction
  end.

(** The dynamic lookup: "a computed key built from the field prefix plus
    the record's fallback-language field value". *)
Definition dynamic_lookup (fallback_field : string) : Fields.Expr :=
  Fields.FallbackTransform (original_name self +:+ "_")
    (Fields.F (Fields.Str fallback_field)) bag_path.

(** The operands of the coalescing expression, in order. *)
Definition fallback_lookups (i18n_field : TranslationField) : list Fields.Expr :=
  static_lookup (Fields.get_language cfg self)
  :: match fallback_language_field i18n_field with
     | Some f => if String.eqb f "" then [] else [dynamic_lookup f]
     | None => []
     end
  ++ map static_lookup (Conf.get_fallback_chain cfg (Fields.get_language cfg self))
  ++ [Fields.Str base_column].

End Lookups.

End Spec.

(** The value a read returns, without the record. *)
Definition returned (r : result (pyval * option Instance)) : result pyval :=
  match r with
  | Ok (v, _) => Ok v
  | Raise e => Raise e
  end.

(** ** A blog model, for concrete evaluation *)

Module Blog.

Definition cfg : Conf.t :=
  {| Conf.django_get_language := Some "fr";
     Conf.gettext := fun s => s;
     Conf.get_available_languages := fun include_default =>
       if include_default then ["en"; "nl"; "de"; "fr"] else ["nl"; "de"; "fr"];
     Conf.get_default_language := "en";
     Conf.get_fallback_chain := fun _ => ["en"; "de"];
     Conf.GLOBAL_DEFAULT_LANGUAGE := "en" |}.

(** The same settings with English active. *)
Definition cfg_en : Conf.t :=
  {| Conf.django_get_language := Some "en";
     Conf.gettext := Conf.gettext cfg;
     Conf.get_available_languages := Conf.get_available_languages cfg;
     Conf.get_default_language := "en";
     Conf.get_fallback_chain := Conf.get_fallback_chain cfg;
     Conf.GLOBAL_DEFAULT_LANGUAGE := "en" |}.

Definition title : Field :=
  {| field_name := "title"; field_class := "CharField"; field_kind := KChar;
     max_length := Some 255; verbose_name := "title" |}.

Definition accessor (language : option string) (name : string) : TranslatedVirtualField :=
  {| original_field := title; language := language; default_language_field := None;
     blank := true; null := true; name := name; tvf_verbose_name := "title" |}.

Definition title_i18n : TranslatedVirtualField := accessor None "title_i18n".
Definition title_en : TranslatedVirtualField := accessor (Some "en") "title_en".
Definition title_nl : TranslatedVirtualField := accessor (Some "nl") "title_nl".

Definition i18n_field : TranslationField :=
  TranslationField_init (Some ["title"]) None None true (Some "language_code").

(** A loaded record: base title "hello", Dutch as its fallback language and
    a Dutch and a German translation in the bag. *)
Definition post : Instance :=
  {| meta_i18n := i18n_field;
     attrs := fun n =>
       if String.eqb n "title" then PyStr "hello"
       else if String.eqb n "language_code" then PyStr "nl"
       else PyNone;
     i18n := Some {[ "title_nl" := PyStr "hallo"; "title_de" := PyStr "guten tag" ]};
     i18n_deferred := false |}.

(** The same record fetched with [defer("i18n")]. *)
Definition post_deferred : Instance :=
  {| meta_i18n := i18n_field; attrs := attrs post; i18n := i18n post;
     i18n_deferred := true |}.

(** A bag descriptor with [required_languages={"title": ("xx",)}]. *)
Definition i18n_required (virtual_fields : bool) : TranslationField :=
  TranslationField_init (Some ["title"]) None
    (Some (ReqDict [("title", ItemSeq ["xx"])])) virtual_fields None.

Definition model (virtual_fields : bool) : Model :=
  {| __name__ := "Blog";
     object_name := "Blog";
     meta_fields := {[ "title" := ConcreteField title;
                       "i18n" := I18nField (i18n_required virtual_fields) ]};
     class_attrs := {[ "title"; "i18n" ]};
     i18n_field_params := None |}.

Definition env : Translator.Env :=
  {| Translator.get_model_field := fun m path => meta_fields m !! path;
     Translator.add_manager := Translator.ret tt;
     Translator.patch_constructor := Translator.ret tt;
     Translator.translate_meta_ordering := Translator.ret tt |}.

End Blog.

(** ** More of fields.py and of the blog model *)

Module TranslationFieldClass.

(** [TranslationField.contribute_to_class(cls, name)]: the name must be
    "i18n"; the field is then registered on the class as any model field
    is ([super().contribute_to_class]). *)
Definition contribute_to_class (self : TranslationField) (cls : Model)
    (name : string) : result Model :=
  if negb (String.eqb name "i18n")
  then Raise (ImproperlyConfigured (BadI18nName "TranslationField"))
  else
    Ok {| __name__ := __name__ cls;
          object_name := object_name cls;
          meta_fields := <[name := I18nField self]> (meta_fields cls);
          class_attrs := {[name]} ∪ class_attrs cls;
          i18n_field_params := i18n_field_params cls |}.

End TranslationFieldClass.

Module Samples.

(** A record whose bag is the Python [None]. *)
Definition draft : Instance :=
  {| meta_i18n := Blog.i18n_field;
     attrs := attrs Blog.post;
     i18n := None;
     i18n_deferred := false |}.

Definition title_de : TranslatedVirtualField := Blog.accessor (Some "de") "title_de".

(** A model with a translatable title, German required. *)
Definition i18n_german_required : TranslationField :=
  TranslationField_init (Some ["title"]) None (Some (ReqSeq ["de"])) true None.

Definition model : Model :=
  {| __name__ := "Blog";
     object_name := "Blog";
     meta_fields := {[ "title" := ConcreteField Blog.title;
                       "i18n" := I18nField i18n_german_required ]};
     class_attrs := {[ "title"; "i18n" ]};
     i18n_field_params := None |}.

(** The same model declaring a field it does not have. *)
Definition i18n_missing_field : TranslationField :=
  TranslationField_init (Some ["title"; "body"]) None None true None.

Definition model_missing_field : Model :=
  {| __name__ := "Blog";
     object_name := "Blog";
     meta_fields := {[ "title" := ConcreteField Blog.title;
                       "i18n" := I18nField i18n_missing_field ]};
     class_attrs := {[ "title"; "i18n" ]};
     i18n_field_params := None |}.

(** A model without a bag. *)
Definition plain_model : Model :=
  {| __name__ := "Tag";
     object_name := "Tag";
     meta_fields := {[ "title" := ConcreteField Blog.title ]};
     class_attrs := {[ "title" ]};
     i18n_field_params := None |}.

End Samples.

(** ** Predicates on the schema *)

Module Schema.

(** [M'] keeps what [M] has: its names and parameters, its class
    attributes, and every field of [M] that is a class attribute. *)
Definition keeps (M M' : Model) : Prop :=
  __name__ M' = __name__ M
  /\ object_name M' = object_name M
  /\ i18n_field_params M' = i18n_field_params M
  /\ class_attrs M ⊆ class_attrs M'
  /\ forall n f, n ∈ class_attrs M -> meta_fields M !! n = Some f ->
                 meta_fields M' !! n = Some f.

(** Every code of the list is an available language. *)
Definition available (cfg : Conf.t) (languages : list string) : Prop :=
  forall lang, lang ∈ languages -> lang ∈ Conf.get_available_languages cfg true.

(** A [required_languages] value that [validate] accepts: a sequence of
    available languages, or a dict from translated fields to such
    sequences. *)
Definition required_ok (cfg : Conf.t) (i18n_field : TranslationField) : Prop :=
  match required_languages i18n_field with
  | ReqSeq languages => available cfg languages
  | ReqDict items =>
      forall fieldname languages, (fieldname, languages) ∈ items ->
        fieldname ∈ fields i18n_field
        /\ exists l, languages = ItemSeq l /\ available cfg l
  | ReqOther _ => False
  end.

(** The class has, under the name [n], a virtual field for [original] with
    the given language, default-language field and nullability. *)
Definition accessor_at (M : Model) (n : string) (original : Field)
    (lang dlf : option string) (nullable : bool) : Prop :=
  exists v, meta_fields M !! n = Some (VirtualField v)
            /\ n ∈ class_attrs M
            /\ original_field v = original
            /\ language v = lang
            /\ default_language_field v = dlf
            /\ blank v = nullable
            /\ null v = nullable
            /\ name v = n.

(** The required languages of one field, as [add_virtual_fields] takes
    them from the [required_languages] argument. *)
Definition field_required_languages (required : ReqValue) (field_name : string) : ReqItem :=
  match required with
  | ReqDict items => items_get items field_name
  | ReqSeq langs => ItemSeq langs
  | ReqOther contains => ItemOther contains
  end.

End Schema.

(** * Properties *)

(** ** The field-name codec *)

Section Codec.

Import PyStr.

Lemma app_nil (t : string) : "" +:+ t = t.
Proof. reflexivity. Qed.

Lemma app_cons (a : ascii) (s t : string) : String a s +:+ t = String a (s +:+ t).
Proof. reflexivity. Qed.

Lemma app_assoc_str (s t u : string) : (s +:+ t) +:+ u = s +:+ (t +:+ u).
Proof.
  induction s as [|a s IH]; [reflexivity|].
  rewrite !app_cons. now rewrite IH.
Qed.

Lemma str_length_app (s t : string) :
  String.length (s +:+ t) = (String.length s + String.length t)%nat.
Proof. induction s as [|a s IH]; simpl; [reflexivity | now rewrite IH]. Qed.

Lemma substring_app_head (s t : string) :
  String.substring 0 (String.length s) (s +:+ t) = s.
Proof.
  induction s as [|a s IH]; simpl.
  - destruct t; reflexivity.
  - now rewrite IH.
Qed.

Lemma substring_all (s : string) : String.substring 0 (String.length s) s = s.
Proof. induction s as [|a s IH]; simpl; [reflexivity | now rewrite IH]. Qed.

Lemma substring_app_tail (s t : string) :
  String.substring (String.length s) (String.length t) (s +:+ t) = t.
Proof. induction s as [|a s IH]; simpl; [apply substring_all | exact IH]. Qed.

Lemma prefix_char (c a : ascii) (t : string) :
  String.prefix (String c EmptyString) (String a t) = bool_decide (c = a).
Proof.
  simpl. destruct (ascii_dec c a) as [->|Hne].
  - destruct t; symmetry; now apply bool_decide_eq_true.
  - symmetry. now apply bool_decide_eq_false.
Qed.

Lemma rfind_absent (c : ascii) (s : string) :
  contains_char c s = false -> rfind (String c EmptyString) s = -1.
Proof.
  induction s as [|a s IH]; intros H.
  - reflexivity.
  - simpl in H. destruct (Ascii.eqb a c) eqn:E; [discriminate|].
    cbn [rfind]. rewrite (IH H). cbn [Z.leb Z.compare].
    rewrite prefix_char, bool_decide_eq_false_2; [reflexivity|].
    intros ->. now rewrite Ascii.eqb_refl in E.
Qed.

Lemma rfind_last (c : ascii) (s t : string) :
  contains_char c t = false ->
  rfind (String c EmptyString) (s +:+ String c t) = Z.of_nat (String.length s).
Proof.
  intros H. induction s as [|a s IH].
  - rewrite app_nil. cbn [rfind]. rewrite (rfind_absent _ _ H). cbn [Z.leb Z.compare].
    rewrite prefix_char, bool_decide_eq_true_2; reflexivity.
  - rewrite app_cons. cbn [rfind]. rewrite IH.
    destruct (0 <=? Z.of_nat (String.length s)) eqn:E; [cbn [String.length]; lia|].
    apply Z.leb_gt in E. lia.
Qed.

(** Splitting at the last separator gives back the two parts. *)
Lemma split_join (base lang : string) :
  contains_char "_" lang = false ->
  Utils.split_translated_fieldname (base +:+ "_" +:+ lang) = (base, lang).
Proof.
  intros H. unfold Utils.split_translated_fieldname.
  change ("_" +:+ lang) with (String "_" lang).
  rewrite (rfind_last _ base lang H). unfold slice, slice_index.
  rewrite str_length_app. cbn [String.length].
  set (n := String.length base). set (m := String.length lang).
  assert (E1 : (0 <? 0) = false) by reflexivity.
  assert (E2 : (Z.of_nat n <? 0) = false) by (apply Z.ltb_ge; lia).
  assert (E3 : (Z.of_nat n + 1 <? 0) = false) by (apply Z.ltb_ge; lia).
  rewrite E1, E2, E3. f_equal.
  - replace (Z.to_nat (Z.max 0 (Z.min (Z.of_nat (n + S m)) 0))) with 0%nat by lia.
    replace (Z.to_nat _) with n by lia.
    apply substring_app_head.
  - replace (Z.to_nat (Z.max 0 (Z.min (Z.of_nat (n + S m)) (Z.of_nat n + 1))))
      with (String.length (base +:+ "_")) by (rewrite str_length_app; cbn [String.length]; lia).
    replace (Z.to_nat _) with m by lia.
    replace (base +:+ String "_" lang) with ((base +:+ "_") +:+ lang)
      by apply app_assoc_str.
    apply substring_app_tail.
Qed.

End Codec.

Section CodecClaims.

Import PyStr.

Lemma replace_dash (s : string) : replace s "-" "_" = Spec.dash_to_underscore s.
Proof.
  unfold replace. induction s as [|a s IH]; [reflexivity|].
  cbn [replace_scan Spec.dash_to_underscore]. rewrite prefix_char.
  change (String.length "-" - 1)%nat with 0%nat. rewrite IH.
  destruct (Ascii.eqb a "-") eqn:E.
  - apply Ascii.eqb_eq in E as ->. reflexivity.
  - rewrite bool_decide_eq_false_2; [reflexivity|].
    intros <-. discriminate.
Qed.

Lemma dash_free (s : string) :
  contains_char "-" s = false -> Spec.dash_to_underscore s = s.
Proof.
  induction s as [|a s IH]; [reflexivity|]. simpl.
  destruct (Ascii.eqb a "-"); [discriminate|]. intros H. now rewrite IH.
Qed.

Lemma dash_to_underscore_id (s : string) :
  Spec.dash_to_underscore s = "id" -> s = "id".
Proof.
  destruct s as [|a [|b [|c s]]]; simpl; try discriminate.
  destruct (Ascii.eqb a "-"); [discriminate|].
  destruct (Ascii.eqb b "-"); [discriminate|].
  congruence.
Qed.

Lemma build_is_encode (base_field language : string) :
  Utils.build_localized_fieldname base_field language = Spec.encode base_field language.
Proof.
  unfold Utils.build_localized_fieldname, Spec.encode, Spec.normalize.
  rewrite replace_dash. do 2 f_equal.
  destruct (String.eqb language "id") eqn:E.
  - apply String.eqb_eq in E as ->. reflexivity.
  - destruct (String.eqb (Spec.dash_to_underscore language) "id") eqn:E'; [|reflexivity].
    apply String.eqb_eq, dash_to_underscore_id in E'. subst.
    discriminate.
Qed.

(** C9: [encode(base_field, language)] is
    [base_field + "_" + normalize(language)], where [normalize] replaces "-"
    with "_" and remaps "id" to "ind"; [encode("title", "id")] is
    "title_ind" and [encode("title", "pt-br")] is "title_pt_br". *)
Theorem encode_is_base_sep_normalized (base_field language : string) :
  Utils.build_localized_fieldname base_field language
    = base_field +:+ "_" +:+ Spec.normalize language
  /\ Utils.build_localized_fieldname "title" "id" = "title_ind"
  /\ Utils.build_localized_fieldname "title" "pt-br" = "title_pt_br".
Proof.
  split; [apply build_is_encode | split; reflexivity].
Qed.

(** C3, as the code has it: [decode] splits a storage key at its last
    underscore into (base_field, language), so the language part holds no
    underscore; [decode("title_pt_br")] is [("title_pt", "br")]. *)
Theorem decode_splits_at_last_underscore (base_field language : string)
    (Hlast : contains_char "_" language = false) :
  Utils.split_translated_fieldname (base_field +:+ "_" +:+ language)
    = (base_field, language)
  /\ Utils.split_translated_fieldname "title_pt_br" = ("title_pt", "br").
Proof.
  split; [now apply split_join | reflexivity].
Qed.

Lemma decode_splits_at_last_underscore_witness :
  Utils.split_translated_fieldname ("full_name" +:+ "_" +:+ "nl") = ("full_name", "nl")
  /\ Utils.split_translated_fieldname "title_pt_br" = ("title_pt", "br").
Proof.
  apply (decode_splits_at_last_underscore "full_name" "nl"). reflexivity.
Defined.

(** C3 as stated fails: [decode("title_pt_br")] is not
    [("title", "pt_br")]. *)
Lemma decode_title_pt_br_is_not_title :
  Utils.split_translated_fieldname "title_pt_br" <> ("title", "pt_br").
Proof. discriminate. Qed.

(** C10: for a language code without "-" and "_" that is not "id",
    [decode(encode(F, L))] is [(F, L)], whatever underscores [F] holds. *)
Theorem decode_encode_roundtrip (F L : string)
    (Hdash : contains_char "-" L = false)
    (Hsep : contains_char "_" L = false)
    (Hid : String.eqb L "id" = false) :
  Utils.split_translated_fieldname (Utils.build_localized_fieldname F L) = (F, L).
Proof.
  unfold Utils.build_localized_fieldname. rewrite Hid, replace_dash, dash_free by assumption.
  now apply split_join.
Qed.

Lemma decode_encode_roundtrip_witness :
  Utils.split_translated_fieldname (Utils.build_localized_fieldname "full_name" "nl")
    = ("full_name", "nl").
Proof.
  apply (decode_encode_roundtrip "full_name" "nl"); reflexivity.
Defined.

End CodecClaims.

(** ** Reading and writing through a synthetic accessor *)

Section ReadPath.
Context (cfg : Conf.t) (self : TranslatedVirtualField).

(** The loop over the fallback chain, followed by the final read of the
    base field, returns the first truthy hit. *)
Lemma walk_chain_first_truthy_hit (base_value default_language : pyval)
    (i18n : gmap string pyval) (chain : list string) :
  from_option id base_value
    (Fields.walk_chain (original_name self) base_value default_language i18n chain)
  = Spec.first_truthy_hit (original_name self) base_value default_language i18n chain.
Proof.
  induction chain as [|candidate rest IH]; [reflexivity|].
  cbn [Fields.walk_chain Spec.first_truthy_hit]. unfold Spec.candidate_value.
  case_bool_decide.
  - destruct (truthy base_value); [reflexivity | exact IH].
  - unfold dict_get.
    destruct (i18n !! _) as [v|]; cbn [default from_option id]; [|exact IH].
    destruct (truthy v); [reflexivity | exact IH].
Qed.

(** Initialising an absent bag changes nothing a read looks at. *)
Lemma bag_init (instance : Instance) : bag (init_bag instance) = bag instance.
Proof.
  unfold bag, init_bag. destruct (i18n instance) eqn:E; [now rewrite E | reflexivity].
Qed.

Lemma attrs_init (instance : Instance) : attrs (init_bag instance) = attrs instance.
Proof. unfold init_bag. now destruct (i18n instance). Qed.

Lemma meta_init (instance : Instance) : meta_i18n (init_bag instance) = meta_i18n instance.
Proof. unfold init_bag. now destruct (i18n instance). Qed.

Lemma chain_init (instance : Instance) (l : string) :
  Fields.get_instance_fallback_chain cfg self (init_bag instance) l
  = Fields.get_instance_fallback_chain cfg self instance l.
Proof.
  unfold Fields.get_instance_fallback_chain, get_instance_field_value.
  now rewrite meta_init, attrs_init.
Qed.

(** The value the current-language accessor reads on a loaded record. *)
Lemma get_current_language (instance : Instance) :
  language self = None ->
  i18n_deferred instance = false ->
  returned (Fields.__get__ cfg self (Some instance))
  = Ok (Spec.first_truthy_hit (original_name self)
          (getattr instance (original_name self))
          (Fields.get_default_language cfg self instance)
          (bag instance)
          (Fields.get_language cfg self
           :: Fields.get_instance_fallback_chain cfg self instance
                (Fields.get_language cfg self))).
Proof.
  intros Hcur Hloaded. unfold Fields.__get__. rewrite Hloaded, Hcur.
  rewrite <- walk_chain_first_truthy_hit.
  rewrite bag_init, chain_init. unfold getattr. rewrite attrs_init.
  cbn [Fields.walk_chain].
  case_bool_decide as Hdef; cbn [andb].
  - destruct (truthy (attrs instance (original_name self))) eqn:Ht; [reflexivity|].
    now destruct (Fields.walk_chain _ _ _ _ _).
  - now destruct (match bag instance !! _ with Some _ => _ | None => _ end).
Qed.

End ReadPath.

Section WritePath.
Context (cfg : Conf.t).

Lemma default_language_ext (self : TranslatedVirtualField) (a b : Instance) :
  (forall n, attrs a n = attrs b n) ->
  Fields.get_default_language cfg self a = Fields.get_default_language cfg self b.
Proof.
  intros H. unfold Fields.get_default_language, get_instance_field_value.
  now rewrite H.
Qed.

Lemma fallback_chain_ext (self : TranslatedVirtualField) (a b : Instance) (l : string) :
  meta_i18n a = meta_i18n b ->
  (forall n, attrs a n = attrs b n) ->
  Fields.get_instance_fallback_chain cfg self a l
  = Fields.get_instance_fallback_chain cfg self b l.
Proof.
  intros Hm H. unfold Fields.get_instance_fallback_chain, get_instance_field_value.
  rewrite Hm. destruct (fallback_language_field (meta_i18n b)); [|reflexivity].
  now rewrite H.
Qed.

(** A read looks at the descriptor, the attributes, the entries of the bag
    and the deferral of the bag, and at nothing else of the record. *)
Lemma read_ext (reader : TranslatedVirtualField) (a b : Instance) :
  meta_i18n a = meta_i18n b ->
  (forall n, attrs a n = attrs b n) ->
  bag a = bag b ->
  i18n_deferred a = i18n_deferred b ->
  returned (Fields.__get__ cfg reader (Some a))
  = returned (Fields.__get__ cfg reader (Some b)).
Proof.
  intros Hm Ha Hb Hd. unfold Fields.__get__. rewrite Hd.
  destruct (i18n_deferred b); [reflexivity|].
  unfold getattr. rewrite !attrs_init, !bag_init.
  rewrite (fallback_chain_ext reader (init_bag a) (init_bag b))
    by (rewrite ?meta_init, ?attrs_init; assumption).
  rewrite (default_language_ext reader a b Ha), Ha, Hb.
  destruct (_ && _); [reflexivity|].
  destruct (language reader); [reflexivity|].
  now destruct (Fields.walk_chain _ _ _ _ _).
Qed.

Lemma set_default_language (self : TranslatedVirtualField) (instance : Instance) :
  Fields.get_default_language cfg self (init_bag (load_i18n instance))
  = Fields.get_default_language cfg self instance.
Proof. apply default_language_ext. intros n. now rewrite attrs_init. Qed.

Lemma getattr_setattr (instance : Instance) (n : string) (v : pyval) :
  getattr (setattr instance n v) n = v.
Proof. unfold getattr, setattr. cbn [attrs]. now rewrite String.eqb_refl. Qed.

Lemma bag_set (instance : Instance) (m : gmap string pyval) :
  bag (set_i18n instance (Some m)) = m.
Proof. reflexivity. Qed.

Lemma bag_loaded (instance : Instance) :
  bag (init_bag (load_i18n instance)) = bag instance.
Proof. now rewrite bag_init. Qed.

(** A write through an accessor whose language is the record's default
    language. *)
Lemma set_default (self : TranslatedVirtualField) (instance : Instance) (V : pyval) :
  PyStr (Fields.get_language cfg self) = Fields.get_default_language cfg self instance ->
  Fields.__set__ cfg self instance V
  = setattr (init_bag (load_i18n instance)) (original_name self) V.
Proof.
  intros H. unfold Fields.__set__. rewrite set_default_language.
  now rewrite bool_decide_eq_true_2.
Qed.

(** A write through an accessor of another language. *)
Lemma set_other (self : TranslatedVirtualField) (instance : Instance) (V : pyval) :
  PyStr (Fields.get_language cfg self) <> Fields.get_default_language cfg self instance ->
  Fields.__set__ cfg self instance V
  = set_i18n (init_bag (load_i18n instance))
      (Some match V with
            | PyNone =>
                delete (Utils.build_localized_fieldname (original_name self)
                          (Fields.get_language cfg self)) (bag instance)
            | _ =>
                <[Utils.build_localized_fieldname (original_name self)
                    (Fields.get_language cfg self) := V]> (bag instance)
            end).
Proof.
  intros H. unfold Fields.__set__. rewrite set_default_language.
  rewrite bool_decide_eq_false_2, bag_loaded by assumption.
  now destruct V.
Qed.

Lemma set_other_attrs (self : TranslatedVirtualField) (instance : Instance) (V : pyval) :
  PyStr (Fields.get_language cfg self) <> Fields.get_default_language cfg self instance ->
  forall n, attrs (Fields.__set__ cfg self instance V) n = attrs instance n.
Proof.
  intros H n. rewrite set_other by assumption. cbn [set_i18n attrs].
  now rewrite attrs_init.
Qed.

Lemma set_other_meta (self : TranslatedVirtualField) (instance : Instance) (V : pyval) :
  PyStr (Fields.get_language cfg self) <> Fields.get_default_language cfg self instance ->
  meta_i18n (Fields.__set__ cfg self instance V) = meta_i18n instance.
Proof.
  intros H. rewrite set_other by assumption. cbn [set_i18n meta_i18n].
  now rewrite meta_init.
Qed.

Lemma set_loaded (self : TranslatedVirtualField) (instance : Instance) (V : pyval) :
  i18n_deferred (Fields.__set__ cfg self instance V) = false.
Proof.
  unfold Fields.__set__, init_bag, load_i18n.
  destruct (bool_decide _); [|destruct V]; cbn; now destruct (i18n instance).
Qed.

End WritePath.

(** C5: reading any synthetic accessor on a record whose bag was deferred
    from loading raises the deferred-access error ([ValueError]); it never
    returns a value. *)
Theorem deferred_read_raises (cfg : Conf.t) (self : TranslatedVirtualField)
    (instance : Instance) (Hdeferred : i18n_deferred instance = true) :
  Fields.__get__ cfg self (Some instance) = Raise (ValueError Fields.deferred_msg).
Proof. unfold Fields.__get__. now rewrite Hdeferred. Qed.

Lemma deferred_read_raises_witness :
  Fields.__get__ Blog.cfg Blog.title_nl (Some Blog.post_deferred)
  = Raise (ValueError Fields.deferred_msg).
Proof. apply (deferred_read_raises Blog.cfg Blog.title_nl Blog.post_deferred). reflexivity. Defined.

(** C1: with active language fr, configured fallback chain (en, de) and the
    per-record fallback field set to nl, the current-language accessor
    reads, on a record whose bag is loaded, the first truthy hit of fr, nl,
    en, de in this order, a candidate equal to the record's default
    language reading the base field instead of the bag, and the base
    field's value if no candidate hits. *)
Theorem fallback_order_fr_nl_en_de (cfg : Conf.t) (self : TranslatedVirtualField)
    (instance : Instance) (fallback_field : string)
    (Hcurrent : language self = None)
    (Hloaded : i18n_deferred instance = false)
    (Hactive : Utils.get_language cfg = "fr")
    (Hchain : Conf.get_fallback_chain cfg "fr" = ["en"; "de"])
    (Hfield : fallback_language_field (meta_i18n instance) = Some fallback_field)
    (Hnamed : fallback_field <> "")
    (Hrecord : get_instance_field_value instance fallback_field = PyStr "nl") :
  returned (Fields.__get__ cfg self (Some instance))
  = Ok (Spec.first_truthy_hit (original_name self)
          (getattr instance (original_name self))
          (Fields.get_default_language cfg self instance)
          (bag instance)
          ["fr"; "nl"; "en"; "de"]).
Proof.
  rewrite get_current_language by assumption.
  unfold Fields.get_instance_fallback_chain, Fields.get_language.
  rewrite Hcurrent, Hactive, Hchain, Hfield, Hrecord.
  apply String.eqb_neq in Hnamed. rewrite Hnamed. reflexivity.
Qed.

Lemma fallback_order_fr_nl_en_de_witness :
  returned (Fields.__get__ Blog.cfg Blog.title_i18n (Some Blog.post))
  = Ok (Spec.first_truthy_hit "title" (PyStr "hello") (PyStr "en") (bag Blog.post)
          ["fr"; "nl"; "en"; "de"]).
Proof.
  apply (fallback_order_fr_nl_en_de Blog.cfg Blog.title_i18n Blog.post "language_code");
    first [reflexivity | discriminate].
Defined.

(** C6: with no per-record default-language field, a write of V through
    the current-language accessor while the active language is the global
    default language stores V in the base field, changes no other
    attribute and leaves every entry of the bag as it was. *)
Theorem write_in_default_language_stores_in_base (cfg : Conf.t)
    (self : TranslatedVirtualField) (instance : Instance) (V : pyval)
    (Hcurrent : language self = None)
    (Hglobal : truthy_name (default_language_field self) = false)
    (Hactive : Utils.get_language cfg = Conf.GLOBAL_DEFAULT_LANGUAGE cfg) :
  let written := Fields.__set__ cfg self instance V in
  getattr written (original_name self) = V
  /\ (forall n, n <> original_name self -> getattr written n = getattr instance n)
  /\ (forall key, bag written !! key = bag instance !! key).
Proof.
  cbn zeta. rewrite set_default.
  - unfold getattr, setattr. cbn [attrs]. repeat split.
    + now rewrite String.eqb_refl.
    + intros n Hn. apply String.eqb_neq in Hn. rewrite Hn. now rewrite attrs_init.
    + intros key. unfold bag at 1. cbn [i18n]. fold (bag (init_bag (load_i18n instance))).
      now rewrite bag_loaded.
  - unfold Fields.get_default_language, Fields.get_language.
    now rewrite Hglobal, Hcurrent, Hactive.
Qed.

Lemma write_in_default_language_stores_in_base_witness :
  let written := Fields.__set__ Blog.cfg_en Blog.title_i18n Blog.post (PyStr "bye") in
  getattr written "title" = PyStr "bye"
  /\ (forall n, n <> "title" -> getattr written n = getattr Blog.post n)
  /\ (forall key, bag written !! key = bag Blog.post !! key).
Proof.
  apply (write_in_default_language_stores_in_base Blog.cfg_en Blog.title_i18n Blog.post
           (PyStr "bye")); reflexivity.
Defined.

(** C7: a write of [None] through an accessor whose language is not the
    record's default language removes the key of that language from the
    bag if it is there and changes nothing if it is not (no error: the
    write always yields the record); a read that follows, through any
    accessor, returns what it returns on a record that never had the
    key. *)
Theorem write_none_removes_key (cfg : Conf.t) (self : TranslatedVirtualField)
    (instance : Instance)
    (Hother : PyStr (Fields.get_language cfg self)
              <> Fields.get_default_language cfg self instance) :
  let key := Utils.build_localized_fieldname (original_name self)
               (Fields.get_language cfg self) in
  let written := Fields.__set__ cfg self instance PyNone in
  i18n written = Some (delete key (bag instance))
  /\ (bag instance !! key = None -> bag written = bag instance)
  /\ (forall n, getattr written n = getattr instance n)
  /\ (forall (reader : TranslatedVirtualField) (never : Instance),
        meta_i18n never = meta_i18n instance ->
        (forall n, getattr never n = getattr instance n) ->
        i18n_deferred never = false ->
        bag never !! key = None ->
        (forall k, k <> key -> bag never !! k = bag instance !! k) ->
        returned (Fields.__get__ cfg reader (Some written))
        = returned (Fields.__get__ cfg reader (Some never)))
  /\ (forall (reader : TranslatedVirtualField) (V : pyval),
        i18n_deferred instance = false ->
        bag instance !! key = None ->
        returned (Fields.__get__ cfg reader
                    (Some (Fields.__set__ cfg self
                             (Fields.__set__ cfg self instance V) PyNone)))
        = returned (Fields.__get__ cfg reader (Some instance))).
Proof.
  cbn zeta. rewrite (set_other cfg self instance PyNone Hother).
  split; [reflexivity|]. split; [|split; [|split]].
  - intros Habsent. rewrite bag_set. now apply delete_id.
  - intros n. unfold getattr. cbn [set_i18n attrs]. now rewrite attrs_init.
  - intros reader never Hm Ha Hd Hkey Hrest. apply read_ext.
    + cbn [set_i18n meta_i18n]. now rewrite meta_init.
    + intros n. cbn [set_i18n attrs]. rewrite attrs_init. symmetry. apply Ha.
    + rewrite bag_set. apply map_eq. intros k.
      destruct (decide (k = Utils.build_localized_fieldname (original_name self)
                              (Fields.get_language cfg self))) as [->|Hk].
      * now rewrite lookup_delete_eq, Hkey.
      * rewrite lookup_delete_ne by congruence. symmetry. now apply Hrest.
    + now rewrite Hd.
  - intros reader V Hloaded Habsent.
    assert (Hother' : PyStr (Fields.get_language cfg self)
                      <> Fields.get_default_language cfg self
                           (Fields.__set__ cfg self instance V)).
    { rewrite (default_language_ext cfg self _ instance); [exact Hother|].
      now apply set_other_attrs. }
    apply read_ext.
    + now rewrite !set_other_meta.
    + intros n. now rewrite !set_other_attrs.
    + rewrite (set_other cfg self _ PyNone Hother'), bag_set.
      rewrite (set_other cfg self instance V Hother), bag_set.
      destruct V; [rewrite delete_delete_eq | rewrite delete_insert_eq];
        now apply delete_id.
    + now rewrite set_loaded, Hloaded.
Qed.

Lemma write_none_removes_key_witness :
  i18n (Fields.__set__ Blog.cfg Blog.title_nl Blog.post PyNone)
  = Some (delete "title_nl" (bag Blog.post)).
Proof.
  apply (write_none_removes_key Blog.cfg Blog.title_nl Blog.post). discriminate.
Defined.

(** C2, as the code has it: on a record whose bag is loaded and whose
    default-language field, if any, is not the base field itself, a write
    of V through an accessor followed by a read through it returns V when
    V is truthy (neither [None] nor empty), and for every V when the
    accessor has a fixed language other than the record's default
    language. *)
Theorem write_then_read (cfg : Conf.t) (self : TranslatedVirtualField)
    (instance : Instance) (V : pyval)
    (Hloaded : i18n_deferred instance = false)
    (Hvalue : truthy V = true
              \/ (language self <> None
                  /\ PyStr (Fields.get_language cfg self)
                     <> Fields.get_default_language cfg self instance))
    (Halias : default_language_field self <> Some (original_name self)) :
  returned (Fields.__get__ cfg self (Some (Fields.__set__ cfg self instance V))) = Ok V.
Proof.
  destruct (decide (PyStr (Fields.get_language cfg self)
                    = Fields.get_default_language cfg self instance)) as [Hdef|Hother].
  - destruct Hvalue as [Htruthy|[_ Hne]]; [|contradiction].
    rewrite (set_default cfg self instance V Hdef).
    unfold Fields.__get__. cbn [setattr i18n_deferred].
    assert (Hl : i18n_deferred (init_bag (load_i18n instance)) = false)
      by (unfold init_bag, load_i18n; cbn; now destruct (i18n instance)).
    rewrite Hl, !getattr_setattr, Htruthy.
    assert (Hd : Fields.get_default_language cfg self
                   (setattr (init_bag (load_i18n instance)) (original_name self) V)
                 = Fields.get_default_language cfg self instance).
    { unfold Fields.get_default_language, get_instance_field_value.
      destruct (truthy_name (default_language_field self)) eqn:Ht; cbn [negb]; [|reflexivity].
      cbn [setattr attrs]. rewrite attrs_init. cbn [load_i18n set_i18n attrs].
      destruct (default_language_field self) as [dlf|]; [|discriminate].
      cbn [default from_option id].
      assert (Hne : dlf <> original_name self) by congruence.
      apply String.eqb_neq in Hne. now rewrite Hne. }
    rewrite Hd, bool_decide_eq_true_2 by assumption. reflexivity.
  - assert (Hd : Fields.get_default_language cfg self (Fields.__set__ cfg self instance V)
                 = Fields.get_default_language cfg self instance)
      by (apply default_language_ext; now apply set_other_attrs).
    unfold Fields.__get__. rewrite set_loaded, Hd.
    rewrite bool_decide_eq_false_2 by assumption. cbn [andb].
    assert (Hinit : init_bag (Fields.__set__ cfg self instance V)
                    = Fields.__set__ cfg self instance V)
      by (rewrite set_other by assumption; reflexivity).
    rewrite Hinit.
    set (key := Utils.build_localized_fieldname (original_name self)
                  (Fields.get_language cfg self)).
    assert (Hbag : bag (Fields.__set__ cfg self instance V)
                   = match V with
                     | PyNone => delete key (bag instance)
                     | _ => <[key := V]> (bag instance)
                     end)
      by (rewrite set_other by assumption; apply bag_set).
    rewrite Hbag.
    destruct (language self) eqn:Hlang.
    + unfold dict_get. destruct V; [now rewrite lookup_delete_eq | now rewrite lookup_insert_eq].
    + destruct Hvalue as [Htruthy|[Hfixed _]]; [|contradiction].
      destruct V as [|s]; [discriminate|].
      cbn [Fields.walk_chain]. rewrite bool_decide_eq_false_2 by assumption.
      fold key. rewrite lookup_insert_eq, Htruthy. unfold dict_get.
      now rewrite lookup_insert_eq.
Qed.

Lemma write_then_read_witness :
  returned (Fields.__get__ Blog.cfg Blog.title_i18n
              (Some (Fields.__set__ Blog.cfg Blog.title_i18n Blog.post (PyStr "bonjour"))))
  = Ok (PyStr "bonjour").
Proof.
  apply (write_then_read Blog.cfg Blog.title_i18n Blog.post (PyStr "bonjour"));
    [reflexivity | left; reflexivity | discriminate].
Defined.

(** The empty string written through the current-language accessor is not
    read back: the read falls through to the record's fallback language. *)
Lemma write_then_read_empty :
  returned (Fields.__get__ Blog.cfg Blog.title_i18n
              (Some (Fields.__set__ Blog.cfg Blog.title_i18n Blog.post (PyStr ""))))
  = Ok (PyStr "hallo").
Proof. vm_compute. reflexivity. Qed.

(** The empty string written through the accessor of the default language
    is stored in the base field, and the read yields [None]. *)
Lemma write_then_read_empty_default :
  returned (Fields.__get__ Blog.cfg Blog.title_en
              (Some (Fields.__set__ Blog.cfg Blog.title_en Blog.post (PyStr ""))))
  = Ok PyNone.
Proof. vm_compute. reflexivity. Qed.

(** C2 as stated fails: a non-null value is not always read back. *)
Lemma write_then_read_not_for_every_value :
  ~ (forall (cfg : Conf.t) (A : TranslatedVirtualField) (R : Instance) (V : pyval),
        V <> PyNone ->
        i18n_deferred R = false ->
        returned (Fields.__get__ cfg A (Some (Fields.__set__ cfg A R V))) = Ok V).
Proof.
  intros H.
  specialize (H Blog.cfg Blog.title_i18n Blog.post (PyStr "")).
  rewrite write_then_read_empty in H.
  assert (Ok (PyStr "hallo") = Ok (PyStr "")) as Heq by (apply H; [discriminate | reflexivity]).
  discriminate Heq.
Qed.

(** ** Query expressions *)

Section Expressions.
Context (cfg : Conf.t) (self : TranslatedVirtualField) (bare_lookup : string).

Lemma localized_lookup_static (candidate : string) :
  Fields._localized_lookup cfg self (Fields.LangCode candidate) bare_lookup
  = Spec.static_lookup cfg self bare_lookup candidate.
Proof.
  unfold Fields._localized_lookup, Spec.static_lookup, truthy_name,
    Fields.is_global_default, Spec.base_column, Spec.bag_path.
  destruct (default_language_field self) as [dlf|]; cbn [negb andb default from_option id].
  - destruct (String.eqb dlf ""); cbn [negb andb]; [|reflexivity].
    now destruct (String.eqb candidate _).
  - now destruct (String.eqb candidate _).
Qed.

Lemma localized_lookup_dynamic (fallback_field : string) :
  Fields._localized_lookup cfg self (Fields.LangF fallback_field) bare_lookup
  = Spec.dynamic_lookup self bare_lookup fallback_field.
Proof.
  unfold Fields._localized_lookup, Fields.is_global_default, Spec.dynamic_lookup.
  rewrite andb_false_r. reflexivity.
Qed.

End Expressions.

(** C4, as the code has it: compiled with fallback, an accessor that has no
    per-record default-language field and whose language is the global
    default language yields a plain reference to the base field's column;
    every other accessor yields the coalescing expression over, in order,
    the lookup of its language, the dynamic lookup keyed by the per-record
    fallback-language field if there is one, one lookup per configured
    fallback language and the base field's column, typed to the original
    field's output type. *)
Theorem as_expression_with_fallback (cfg : Conf.t) (self : TranslatedVirtualField)
    (i18n_field : TranslationField) (bare_lookup : string) :
  Fields.as_expression cfg self i18n_field bare_lookup true
  = if negb (truthy_name (default_language_field self))
       && String.eqb (Fields.get_language cfg self) (Conf.GLOBAL_DEFAULT_LANGUAGE cfg)
    then Fields.F (Fields.Str (Spec.base_column self bare_lookup))
    else Fields.Coalesce (Spec.fallback_lookups cfg self bare_lookup i18n_field)
           (Fields.output_field self).
Proof.
  unfold Fields.as_expression.
  destruct (negb _ && _) eqn:Hguard.
  - unfold Fields._localized_lookup, Fields.is_global_default. now rewrite Hguard.
  - cbn [negb]. unfold Spec.fallback_lookups. f_equal.
    rewrite localized_lookup_static, localized_lookup_dynamic.
    rewrite (map_ext _ _ (localized_lookup_static cfg self bare_lookup)).
    unfold truthy_name, Spec.base_column.
    destruct (fallback_language_field i18n_field) as [f|]; [|reflexivity].
    now destruct (String.eqb f "").
Qed.

(** The accessor of the global default language compiles to the column of
    the base field, with or without fallback. *)
Lemma as_expression_title_en :
  Fields.as_expression Blog.cfg Blog.title_en Blog.i18n_field "title_en" true
  = Fields.F (Fields.Str "title").
Proof. reflexivity. Qed.

(** C4 as stated fails: not every accessor compiles to a coalescing
    expression. *)
Lemma as_expression_not_always_coalesce :
  ~ (forall (cfg : Conf.t) (A : TranslatedVirtualField) (i18n_field : TranslationField)
            (bare_lookup : string),
        exists lookups output,
          Fields.as_expression cfg A i18n_field bare_lookup true
          = Fields.Coalesce lookups output).
Proof.
  intros H.
  destruct (H Blog.cfg Blog.title_en Blog.i18n_field "title_en") as (lookups & output & Heq).
  rewrite as_expression_title_en in Heq. discriminate Heq.
Qed.

(** ** Schema wiring *)

Section Validation.
Context (cfg : Conf.t) (env : Translator.Env).

(** After the loop over a non-empty [fields], the local [field] is bound,
    unless the loop raised [ImproperlyConfigured]. *)
Lemma validate_fields_binds (Model : Model) (names : list string)
    (field : option LocalField) :
  names <> [] \/ is_Some field ->
  (exists why, Translator.validate_fields Model names field
               = Raise (ImproperlyConfigured why))
  \/ (exists f, Translator.validate_fields Model names field = Ok (Some f)).
Proof.
  revert field. induction names as [|n names IH]; intros field H.
  - destruct H as [H|[f ->]]; [contradiction|]. right. now exists f.
  - cbn [Translator.validate_fields].
    destruct (meta_fields Model !! n); [|left; eauto].
    apply IH. right. eauto.
Qed.

Lemma validate_fields_ok (Model : Model) (names : list string)
    (field : option LocalField) :
  (forall n, n ∈ names -> is_Some (meta_fields Model !! n)) ->
  exists field', Translator.validate_fields Model names field = Ok field'
                 /\ (names <> [] \/ is_Some field -> is_Some field').
Proof.
  revert field. induction names as [|n names IH]; intros field H.
  - exists field. split; [reflexivity|]. intros [?|?]; [contradiction | assumption].
  - cbn [Translator.validate_fields].
    destruct (H n) as [f Hf]; [left|]. rewrite Hf.
    destruct (IH (Some (LocalName n))) as (field' & Heq & Hsome).
    + intros m Hm. apply H. now right.
    + exists field'. split; [exact Heq|]. intros _. apply Hsome. right. eauto.
Qed.

Lemma check_languages_unavailable (lang : string) (model : Model) :
  lang ∉ Conf.get_available_languages cfg true ->
  Translator.check_languages cfg [lang] model
  = Raise (ImproperlyConfigured (LanguageNotAvailable lang (__name__ model))).
Proof.
  intros H. cbn [Translator.check_languages]. now rewrite bool_decide_eq_false_2.
Qed.

(** [validate] on a dict that requires an unavailable language for
    "title". *)
Lemma validate_unavailable (Model : Model) (i18n_field : TranslationField) :
  meta_fields Model !! "i18n" = Some (I18nField i18n_field) ->
  fields i18n_field <> [] ->
  required_languages i18n_field = ReqDict [("title", ItemSeq ["xx"])] ->
  "xx" ∉ Conf.get_available_languages cfg true ->
  exists why, Translator.validate cfg env Model = Raise (ImproperlyConfigured why).
Proof.
  intros Hi18n Hfields Hreq Hxx. unfold Translator.validate. rewrite Hi18n.
  destruct (validate_fields_binds Model (fields i18n_field) None) as [[why ->]|[f ->]];
    [now left | eauto |].
  assert (Hdict : forall field : LocalField,
             exists why,
               Translator.validate_required_items cfg Model i18n_field (Some field)
                 [("title", ItemSeq ["xx"])] = Raise (ImproperlyConfigured why)).
  { intros field. cbn [Translator.validate_required_items].
    destruct (negb _); [eauto|].
    rewrite check_languages_unavailable by assumption. eauto. }
  rewrite Hreq. cbn [req_truthy].
  destruct (truthy_name (fallback_language_field i18n_field)).
  - destruct (Translator.get_model_field env Model _); [apply Hdict | eauto].
  - apply Hdict.
Qed.

Lemma validate_unavailable_title (Model : Model) (i18n_field : TranslationField) :
  meta_fields Model !! "i18n" = Some (I18nField i18n_field) ->
  required_languages i18n_field = ReqDict [("title", ItemSeq ["xx"])] ->
  "xx" ∉ Conf.get_available_languages cfg true ->
  "title" ∈ fields i18n_field ->
  (forall f, f ∈ fields i18n_field -> is_Some (meta_fields Model !! f)) ->
  (truthy_name (fallback_language_field i18n_field) = true ->
   is_Some (Translator.get_model_field env Model
              (default "" (fallback_language_field i18n_field)))) ->
  Translator.validate cfg env Model
  = Raise (ImproperlyConfigured (LanguageNotAvailable "xx" (__name__ Model))).
Proof.
  intros Hi18n Hreq Hxx Htitle Hexist Hfallback. unfold Translator.validate.
  rewrite Hi18n.
  destruct (validate_fields_ok Model (fields i18n_field) None Hexist) as (field & -> & _).
  assert (Hdict : forall field : option LocalField,
             Translator.validate_required_items cfg Model i18n_field field
               [("title", ItemSeq ["xx"])]
             = Raise (ImproperlyConfigured (LanguageNotAvailable "xx" (__name__ Model)))).
  { intros fld. cbn [Translator.validate_required_items].
    rewrite bool_decide_eq_true_2 by assumption. cbn [negb].
    now rewrite check_languages_unavailable. }
  rewrite Hreq. cbn [req_truthy].
  destruct (truthy_name (fallback_language_field i18n_field)).
  - destruct (Hfallback eq_refl) as [f ->]. apply Hdict.
  - apply Hdict.
Qed.

End Validation.

(** C8, as the code has it: when synthetic accessors are to be added
    ([virtual_fields] is true) and the bag descriptor declares a
    translatable field, [required_languages = {"title": ("xx",)}] with "xx"
    not among the available languages makes schema setup raise
    [ImproperlyConfigured] with the model class unchanged, so before any
    synthetic accessor is created; when "title" and the other declared
    fields exist, the error is the one reporting "xx". *)
Theorem unavailable_required_language_raises (cfg : Conf.t) (env : Translator.Env)
    (Model : Model) (i18n_field : TranslationField)
    (Hi18n : meta_fields Model !! "i18n" = Some (I18nField i18n_field))
    (Hvirtual : virtual_fields i18n_field = true)
    (Hfields : fields i18n_field <> [])
    (Hrequired : required_languages i18n_field = ReqDict [("title", ItemSeq ["xx"])])
    (Hxx : "xx" ∉ Conf.get_available_languages cfg true) :
  (exists why,
      Translator.translate_model cfg env Model = (Raise (ImproperlyConfigured why), Model))
  /\ ("title" ∈ fields i18n_field ->
      (forall f, f ∈ fields i18n_field -> is_Some (meta_fields Model !! f)) ->
      (truthy_name (fallback_language_field i18n_field) = true ->
       is_Some (Translator.get_model_field env Model
                  (default "" (fallback_language_field i18n_field)))) ->
      Translator.translate_model cfg env Model
      = (Raise (ImproperlyConfigured (LanguageNotAvailable "xx" (__name__ Model))),
         Model)).
Proof.
  assert (Hrun : forall e, Translator.validate cfg env Model = Raise e ->
                           Translator.translate_model cfg env Model = (Raise e, Model)).
  { intros e He. unfold Translator.translate_model, Translator.bind, Translator.get,
      Translator.get_i18n_field, Translator.lift.
    rewrite Hi18n, Hvirtual. cbn [negb]. now rewrite He. }
  split.
  - destruct (validate_unavailable cfg env Model i18n_field) as [why Hwhy]; try assumption.
    exists why. now apply Hrun.
  - intros Htitle Hexist Hfallback. apply Hrun.
    now apply validate_unavailable_title with i18n_field.
Qed.

Lemma unavailable_required_language_raises_witness :
  Translator.translate_model Blog.cfg Blog.env (Blog.model true)
  = (Raise (ImproperlyConfigured (LanguageNotAvailable "xx" "Blog")), Blog.model true).
Proof.
  apply (unavailable_required_language_raises Blog.cfg Blog.env (Blog.model true)
           (Blog.i18n_required true)).
  - reflexivity.
  - reflexivity.
  - discriminate.
  - reflexivity.
  - apply (bool_decide_unpack _). vm_compute. exact I.
  - apply (bool_decide_unpack _). vm_compute. exact I.
  - intros f Hf. apply list_elem_of_singleton in Hf as ->. eexists. reflexivity.
  - discriminate.
Defined.

(** With [virtual_fields=False] schema setup returns at once: nothing is
    validated and nothing is raised. *)
Lemma translate_model_without_virtual_fields :
  Translator.translate_model Blog.cfg Blog.env (Blog.model false)
  = (Ok tt, Blog.model false).
Proof. reflexivity. Qed.

(** C8 as stated fails: the configuration does not always raise. *)
Lemma unavailable_required_language_not_always_raised :
  ~ (forall (cfg : Conf.t) (env : Translator.Env) (Model : Model)
            (i18n_field : TranslationField),
        meta_fields Model !! "i18n" = Some (I18nField i18n_field) ->
        required_languages i18n_field = ReqDict [("title", ItemSeq ["xx"])] ->
        bool_decide ("xx" ∈ Conf.get_available_languages cfg true) = false ->
        exists why Model',
          Translator.translate_model cfg env Model
          = (Raise (ImproperlyConfigured why), Model')).
Proof.
  intros H.
  destruct (H Blog.cfg Blog.env (Blog.model false) (Blog.i18n_required false))
    as (why & Model' & Heq); try reflexivity.
  rewrite translate_model_without_virtual_fields in Heq. discriminate Heq.
Qed.

(** ** Concrete evaluations *)

Example split_title_nl :
  Utils.split_translated_fieldname "title_nl" = ("title", "nl").
Proof. reflexivity. Qed.

(** Without a separator [rfind] is -1: the first part loses its last
    character and the second is the whole name. *)
Example split_without_separator :
  Utils.split_translated_fieldname "title" = ("titl", "title").
Proof. reflexivity. Qed.

(** A language code with a region does not survive the round trip. *)
Example split_build_pt_br :
  Utils.split_translated_fieldname (Utils.build_localized_fieldname "title" "pt-br")
  = ("title_pt", "br").
Proof. reflexivity. Qed.

Example replace_takes_disjoint_occurrences : PyStr.replace "aaa" "aa" "b" = "ba".
Proof. reflexivity. Qed.

(** French is active and has no entry: the record's own fallback language,
    Dutch, is tried before the configured chain. *)
Example read_post_title_i18n :
  returned (Fields.__get__ Blog.cfg Blog.title_i18n (Some Blog.post))
  = Ok (PyStr "hallo").
Proof. vm_compute. reflexivity. Qed.

(** An accessor of a fixed language does not fall back. *)
Example read_post_title_fr :
  returned (Fields.__get__ Blog.cfg (Blog.accessor (Some "fr") "title_fr")
              (Some Blog.post))
  = Ok PyNone.
Proof. vm_compute. reflexivity. Qed.

Example as_expression_title_i18n :
  Fields.as_expression Blog.cfg Blog.title_i18n Blog.i18n_field "title_i18n" true
  = Fields.Coalesce
      [Fields.KeyTextTransform "title_fr" "i18n";
       Fields.FallbackTransform "title_" (Fields.F (Fields.Str "language_code")) "i18n";
       Fields.Str "title";
       Fields.KeyTextTransform "title_de" "i18n";
       Fields.Str "title"]
      (Fields.OutFieldMaxLength "CharField" (Some 255)).
Proof. reflexivity. Qed.

(** With no translatable field and no fallback-language field, the local
    [field] of [validate] is unbound when the message for an unknown
    field name is formatted. *)
Example validate_unbound_field :
  Translator.validate Blog.cfg Blog.env
    {| __name__ := "Blog";
       object_name := "Blog";
       meta_fields :=
         {[ "i18n" := I18nField
                        (TranslationField_init None None
                           (Some (ReqDict [("title", ItemSeq ["xx"])])) true None) ]};
       class_attrs := {[ "i18n" ]};
       i18n_field_params := None |}
  = Raise (UnboundLocalError "field").
Proof. reflexivity. Qed.

(** Schema setup of a model with one translatable field adds the
    current-language accessor and one accessor per language. *)
Example translate_model_adds_accessors :
  let Model :=
    {| __name__ := "Blog";
       object_name := "Blog";
       meta_fields :=
         {[ "title" := ConcreteField Blog.title;
            "i18n" := I18nField (TranslationField_init (Some ["title"]) None None true None) ]};
       class_attrs := {[ "title"; "i18n" ]};
       i18n_field_params := None |} in
  match Translator.translate_model Blog.cfg Blog.env Model with
  | (Ok _, Model') =>
      (fun n => bool_decide (is_Some (meta_fields Model' !! n)))
      <$> ["title_i18n"; "title_en"; "title_nl"; "title_de"; "title_fr"; "title_xx"]
  | (Raise _, _) => []
  end = [true; true; true; true; true; false].
Proof. vm_compute. reflexivity. Qed.

(** * Further properties of the code *)

(** ** utils.py *)

Section CodecMore.

Import PyStr.

(** X1: [get_language()] returns an available language or the default
    language, whatever Django reports as active. *)
Theorem get_language_available_or_default (cfg : Conf.t) :
  Utils.get_language cfg ∈ Conf.get_available_languages cfg true
  \/ Utils.get_language cfg = Conf.get_default_language cfg.
Proof.
  unfold Utils.get_language.
  destruct (Conf.django_get_language cfg) as [lang|]; [|now right].
  case_bool_decide; [now left | now right].
Qed.

(** A name that holds the separator ends with a separator followed by a
    part without one. *)
Lemma last_separator (c : ascii) (s : string) :
  contains_char c s = true ->
  exists base lang, s = base +:+ String c lang /\ contains_char c lang = false.
Proof.
  induction s as [|a s IH]; [discriminate|]. cbn [contains_char]. intros H.
  destruct (contains_char c s) eqn:Hs.
  - destruct (IH eq_refl) as (base & lang & -> & Hl).
    exists (String a base), lang. now rewrite app_cons.
  - destruct (Ascii.eqb a c) eqn:E; [|discriminate].
    apply Ascii.eqb_eq in E as ->. exists "", s. now rewrite app_nil.
Qed.

(** X2: on a name that holds an underscore, the two parts of
    [split_translated_fieldname] joined by an underscore give the name
    back, and the second part holds no underscore. *)
Theorem split_rejoins (field_name : string)
    (Hsep : contains_char "_" field_name = true) :
  fst (Utils.split_translated_fieldname field_name) +:+ "_"
    +:+ snd (Utils.split_translated_fieldname field_name) = field_name
  /\ contains_char "_" (snd (Utils.split_translated_fieldname field_name)) = false.
Proof.
  destruct (last_separator _ _ Hsep) as (base & lang & -> & Hl).
  change (String "_" lang) with ("_" +:+ lang).
  rewrite (split_join base lang Hl). now split.
Qed.

Lemma split_rejoins_witness :
  fst (Utils.split_translated_fieldname "first_name_nl") +:+ "_"
    +:+ snd (Utils.split_translated_fieldname "first_name_nl") = "first_name_nl"
  /\ contains_char "_" (snd (Utils.split_translated_fieldname "first_name_nl")) = false.
Proof. apply (split_rejoins "first_name_nl"). reflexivity. Defined.

(** X3: on a name without an underscore [rfind] yields -1; the first part
    is then the name without its last character and the second part the
    whole name. *)
Theorem split_without_underscore (field_name : string)
    (Hnone : contains_char "_" field_name = false) :
  Utils.split_translated_fieldname field_name
  = (String.substring 0 (String.length field_name - 1) field_name, field_name).
Proof.
  unfold Utils.split_translated_fieldname. rewrite (rfind_absent _ _ Hnone).
  unfold slice, slice_index. change (-1 + 1) with 0.
  change (0 <? 0) with false. change (-1 <? 0) with true. cbv iota.
  set (n := String.length field_name).
  replace (Z.to_nat (Z.max 0 (Z.min (Z.of_nat n) 0))) with 0%nat by lia.
  replace (Z.max 0 (Z.min (Z.of_nat n) 0)) with 0 by lia.
  replace (Z.to_nat (Z.max 0 (Z.min (Z.of_nat n) (-1 + Z.of_nat n)) - 0))
    with (n - 1)%nat by lia.
  replace (Z.to_nat (Z.of_nat n - 0)) with n by lia.
  unfold n. now rewrite substring_all.
Qed.

Lemma split_without_underscore_witness :
  Utils.split_translated_fieldname "title" = ("titl", "title").
Proof. apply (split_without_underscore "title"). reflexivity. Defined.

Lemma dash_to_underscore_no_dash (s : string) :
  contains_char "-" (Spec.dash_to_underscore s) = false.
Proof.
  induction s as [|a s IH]; [reflexivity|]. cbn [Spec.dash_to_underscore contains_char].
  destruct (Ascii.eqb a "-") eqn:E; [exact IH|]. now rewrite E.
Qed.

Lemma contains_char_app (c : ascii) (s t : string) :
  contains_char c (s +:+ t) = contains_char c s || contains_char c t.
Proof.
  induction s as [|a s IH]; [reflexivity|]. rewrite app_cons. cbn [contains_char].
  now destruct (Ascii.eqb a c).
Qed.

Lemma split_build_clean (F L : string) :
  contains_char "-" L = false -> contains_char "_" L = false -> L <> "id" ->
  Utils.split_translated_fieldname (Utils.build_localized_fieldname F L) = (F, L).
Proof.
  intros Hdash Hsep Hid. apply String.eqb_neq in Hid.
  unfold Utils.build_localized_fieldname.
  rewrite Hid, replace_dash, dash_free by assumption. now apply split_join.
Qed.

(** X4: the codec round trip holds for exactly the language codes that hold
    neither "-" nor "_" and are not "id". *)
Theorem decode_encode_roundtrip_iff (F L : string) :
  Utils.split_translated_fieldname (Utils.build_localized_fieldname F L) = (F, L)
  <-> contains_char "-" L = false /\ contains_char "_" L = false /\ L <> "id".
Proof.
  split.
  - intros Hsplit.
    assert (Hsep : contains_char "_" (Utils.build_localized_fieldname F L) = true).
    { unfold Utils.build_localized_fieldname. rewrite contains_char_app.
      change ("_" +:+ ?x) with (String "_" x). cbn [contains_char Ascii.eqb].
      cbn. apply orb_true_r. }
    destruct (split_rejoins _ Hsep) as [Hjoin Hnone]. rewrite Hsplit in Hjoin, Hnone.
    cbn [fst snd] in Hjoin, Hnone.
    rewrite build_is_encode in Hjoin. unfold Spec.encode in Hjoin.
    apply (inj (String.append F)), (inj (String.append "_")) in Hjoin.
    unfold Spec.normalize in Hjoin.
    destruct (String.eqb (Spec.dash_to_underscore L) "id") eqn:E.
    + subst L. discriminate.
    + repeat split; [|exact Hnone|].
      * rewrite Hjoin. apply dash_to_underscore_no_dash.
      * intros ->. discriminate.
  - intros (Hdash & Hsep & Hid). now apply split_build_clean.
Qed.

(** X5: the hyphenated and the underscored spelling of a language code
    share one storage key, and so do "id" and "ind". *)
Theorem build_localized_fieldname_collisions (field_name lang : string) :
  Utils.build_localized_fieldname field_name (replace lang "-" "_")
  = Utils.build_localized_fieldname field_name lang
  /\ Utils.build_localized_fieldname field_name "id"
     = Utils.build_localized_fieldname field_name "ind".
Proof.
  split; [|reflexivity].
  rewrite !build_is_encode. unfold Spec.encode, Spec.normalize. do 2 f_equal.
  rewrite replace_dash.
  assert (Hidem : Spec.dash_to_underscore (Spec.dash_to_underscore lang)
                  = Spec.dash_to_underscore lang)
    by (apply dash_free, dash_to_underscore_no_dash).
  now rewrite Hidem.
Qed.

End CodecMore.

(** ** fields.py: the read path *)

Section ReadMore.
Context (cfg : Conf.t).

(** The record after a read. *)
Lemma get_record (self : TranslatedVirtualField) (instance : Instance)
    (v : pyval) (o : option Instance) :
  Fields.__get__ cfg self (Some instance) = Ok (v, o) ->
  i18n_deferred instance = false
  /\ (o = Some instance \/ o = Some (init_bag instance)).
Proof.
  unfold Fields.__get__. destruct (i18n_deferred instance); [discriminate|].
  intros H. split; [reflexivity|].
  destruct (_ && _); [left; congruence|]. right.
  destruct (language self); [congruence|].
  destruct (Fields.walk_chain _ _ _ _ _); congruence.
Qed.

(** The value an accessor of a fixed language reads. *)
Lemma get_fixed_language (self : TranslatedVirtualField) (instance : Instance)
    (L : string) :
  language self = Some L ->
  i18n_deferred instance = false ->
  returned (Fields.__get__ cfg self (Some instance))
  = Ok (if bool_decide (PyStr L = Fields.get_default_language cfg self instance)
           && truthy (getattr instance (original_name self))
        then getattr instance (original_name self)
        else dict_get (bag instance) (Utils.build_localized_fieldname (original_name self) L)).
Proof.
  intros HL Hloaded. unfold Fields.__get__, Fields.get_language.
  rewrite Hloaded, HL, bag_init. now destruct (_ && _).
Qed.

Lemma first_truthy_hit_provenance (base_field : string) (base_value default_language : pyval)
    (i18n : gmap string pyval) (candidates : list string) :
  let v := Spec.first_truthy_hit base_field base_value default_language i18n candidates in
  v = base_value
  \/ (truthy v = true
      /\ exists L, L ∈ candidates
                   /\ i18n !! Utils.build_localized_fieldname base_field L = Some v).
Proof.
  cbn zeta. induction candidates as [|c rest IH]; [now left|].
  cbn [Spec.first_truthy_hit]. unfold Spec.candidate_value, dict_get.
  case_bool_decide as Hd.
  - destruct (truthy base_value); [now left|].
    destruct IH as [IH|(Ht & L & HL & Hb)]; [now left|].
    right. split; [exact Ht|]. exists L. split; [now right | exact Hb].
  - destruct (i18n !! Utils.build_localized_fieldname base_field c) as [v|] eqn:Hv;
      cbn [default from_option id].
    + destruct (truthy v) eqn:Ht.
      * right. split; [exact Ht|]. exists c. split; [now left | exact Hv].
      * destruct IH as [IH|(Ht' & L & HL & Hb)]; [now left|].
        right. split; [exact Ht'|]. exists L. split; [now right | exact Hb].
    + cbn [truthy].
      destruct IH as [IH|(Ht' & L & HL & Hb)]; [now left|].
      right. split; [exact Ht'|]. exists L. split; [now right | exact Hb].
Qed.

End ReadMore.

(** X6: a read that returns changes neither the attributes nor the entries
    of the bag: the record afterwards is the record, or the record with its
    absent bag set to the empty dict. *)
Theorem read_keeps_record (cfg : Conf.t) (self : TranslatedVirtualField)
    (instance : Instance) (v : pyval) (o : option Instance)
    (Hread : Fields.__get__ cfg self (Some instance) = Ok (v, o)) :
  exists instance',
    o = Some instance'
    /\ meta_i18n instance' = meta_i18n instance
    /\ attrs instance' = attrs instance
    /\ bag instance' = bag instance
    /\ i18n_deferred instance' = false
    /\ (i18n instance' = i18n instance
        \/ (i18n instance = None /\ i18n instance' = Some ∅)).
Proof.
  destruct (get_record cfg self instance v o Hread) as [Hloaded [->| ->]].
  - exists instance. repeat split; auto.
  - exists (init_bag instance).
    split; [reflexivity|]. split; [apply meta_init|]. split; [apply attrs_init|].
    split; [apply bag_init|]. unfold init_bag.
    destruct (i18n instance) eqn:E; [split; [exact Hloaded | left; exact E]|].
    split; [reflexivity | right; now split].
Qed.

Lemma read_keeps_record_witness :
  exists instance',
    Some (init_bag Samples.draft) = Some instance'
    /\ meta_i18n instance' = meta_i18n Samples.draft
    /\ attrs instance' = attrs Samples.draft
    /\ bag instance' = bag Samples.draft
    /\ i18n_deferred instance' = false
    /\ (i18n instance' = i18n Samples.draft
        \/ (i18n Samples.draft = None /\ i18n instance' = Some ∅)).
Proof.
  apply (read_keeps_record Blog.cfg Blog.title_nl Samples.draft PyNone
           (Some (init_bag Samples.draft))).
  reflexivity.
Defined.

(** X7: an accessor of a fixed language never falls back: on a loaded
    record it reads the base field when its language is the record's
    default language and the base field is truthy, and otherwise the entry
    of its own key in the bag, [None] if there is none. *)
Theorem read_fixed_language (cfg : Conf.t) (self : TranslatedVirtualField)
    (instance : Instance) (L : string)
    (Hfixed : language self = Some L)
    (Hloaded : i18n_deferred instance = false) :
  returned (Fields.__get__ cfg self (Some instance))
  = Ok (if bool_decide (PyStr L = Fields.get_default_language cfg self instance)
           && truthy (getattr instance (original_name self))
        then getattr instance (original_name self)
        else dict_get (bag instance)
               (Utils.build_localized_fieldname (original_name self) L)).
Proof.
  unfold Fields.__get__, Fields.get_language.
  rewrite Hloaded, Hfixed, bag_init.
  destruct (bool_decide _ && truthy _); reflexivity.
Qed.

Lemma read_fixed_language_witness :
  returned (Fields.__get__ Blog.cfg Samples.title_de (Some Blog.post))
  = Ok (PyStr "guten tag").
Proof.
  apply (read_fixed_language Blog.cfg Samples.title_de Blog.post "de"); reflexivity.
Defined.

(** X8: what the current-language accessor reads on a loaded record is the
    base field's value or a truthy entry of the bag, stored under the key
    of the active language or of a language of the record's fallback
    chain; a falsy entry of the bag is never returned as such. *)
Theorem read_current_language_provenance (cfg : Conf.t) (self : TranslatedVirtualField)
    (instance : Instance) (v : pyval)
    (Hcurrent : language self = None)
    (Hloaded : i18n_deferred instance = false)
    (Hread : returned (Fields.__get__ cfg self (Some instance)) = Ok v) :
  v = getattr instance (original_name self)
  \/ (truthy v = true
      /\ exists L,
           L ∈ Utils.get_language cfg
               :: Fields.get_instance_fallback_chain cfg self instance
                    (Utils.get_language cfg)
           /\ bag instance !! Utils.build_localized_fieldname (original_name self) L
              = Some v).
Proof.
  rewrite get_current_language in Hread by assumption.
  match type of Hread with Ok ?x = Ok _ => assert (E : x = v) by congruence end.
  rewrite <- E. unfold Fields.get_language. rewrite Hcurrent.
  apply first_truthy_hit_provenance.
Qed.

Lemma read_current_language_provenance_witness :
  PyStr "hallo" = getattr Blog.post "title"
  \/ (truthy (PyStr "hallo") = true
      /\ exists L,
           L ∈ Utils.get_language Blog.cfg
               :: Fields.get_instance_fallback_chain Blog.cfg Blog.title_i18n Blog.post
                    (Utils.get_language Blog.cfg)
           /\ bag Blog.post !! Utils.build_localized_fieldname "title" L
              = Some (PyStr "hallo")).
Proof.
  apply (read_current_language_provenance Blog.cfg Blog.title_i18n Blog.post
           (PyStr "hallo")); vm_compute; reflexivity.
Defined.

(** ** fields.py: the write path *)

Section WriteMore.
Context (cfg : Conf.t).

(** The record a write through an accessor of another language than the
    record's default language yields, field by field. *)
Lemma set_other_record (self : TranslatedVirtualField) (instance : Instance) (V : pyval) :
  PyStr (Fields.get_language cfg self) <> Fields.get_default_language cfg self instance ->
  Fields.__set__ cfg self instance V
  = {| meta_i18n := meta_i18n instance;
       attrs := attrs instance;
       i18n := Some match V with
                    | PyNone =>
                        delete (Utils.build_localized_fieldname (original_name self)
                                  (Fields.get_language cfg self)) (bag instance)
                    | _ =>
                        <[Utils.build_localized_fieldname (original_name self)
                            (Fields.get_language cfg self) := V]> (bag instance)
                    end;
       i18n_deferred := false |}.
Proof.
  intros H. rewrite set_other by assumption.
  unfold set_i18n. now rewrite meta_init, attrs_init.
Qed.

Lemma default_language_set_other (self other : TranslatedVirtualField)
    (instance : Instance) (V : pyval) :
  PyStr (Fields.get_language cfg other) <> Fields.get_default_language cfg other instance ->
  Fields.get_default_language cfg self (Fields.__set__ cfg other instance V)
  = Fields.get_default_language cfg self instance.
Proof.
  intros H. apply default_language_ext. now apply set_other_attrs.
Qed.

(** The record a write through an accessor of the record's default language
    yields. *)
Lemma set_default_record (self : TranslatedVirtualField) (instance : Instance) (V : pyval) :
  PyStr (Fields.get_language cfg self) = Fields.get_default_language cfg self instance ->
  Fields.__set__ cfg self instance V
  = {| meta_i18n := meta_i18n instance;
       attrs := fun k => if String.eqb k (original_name self) then V else attrs instance k;
       i18n := Some (bag instance);
       i18n_deferred := false |}.
Proof.
  intros H. rewrite set_default by assumption. unfold setattr.
  rewrite meta_init, attrs_init. cbn [load_i18n set_i18n meta_i18n attrs]. f_equal.
  - unfold init_bag, load_i18n, bag. cbn. now destruct (i18n instance).
  - unfold init_bag, load_i18n. cbn. now destruct (i18n instance).
Qed.

(** A write to the base field keeps the record's default language, unless
    the default-language field is the base field itself. *)
Lemma default_language_set_default (self : TranslatedVirtualField)
    (instance : Instance) (V : pyval) :
  default_language_field self <> Some (original_name self) ->
  PyStr (Fields.get_language cfg self) = Fields.get_default_language cfg self instance ->
  Fields.get_default_language cfg self (Fields.__set__ cfg self instance V)
  = Fields.get_default_language cfg self instance.
Proof.
  intros Halias H. rewrite set_default_record by assumption.
  unfold Fields.get_default_language, get_instance_field_value. cbn [attrs].
  destruct (default_language_field self) as [dlf|]; [|reflexivity].
  assert (Hne : dlf <> original_name self) by congruence.
  apply String.eqb_neq in Hne. cbn [default from_option id]. now rewrite Hne.
Qed.

End WriteMore.

(** X9: a write of a value other than [None] through an accessor whose
    language is not the record's default language stores the value in the
    bag under the key of that language, changes no other entry of the bag
    and no attribute of the record. *)
Theorem write_other_language_stores_in_bag (cfg : Conf.t) (self : TranslatedVirtualField)
    (instance : Instance) (V : pyval)
    (Hother : PyStr (Fields.get_language cfg self)
              <> Fields.get_default_language cfg self instance)
    (Hvalue : V <> PyNone) :
  let key := Utils.build_localized_fieldname (original_name self)
               (Fields.get_language cfg self) in
  let written := Fields.__set__ cfg self instance V in
  i18n written = Some (<[key := V]> (bag instance))
  /\ bag written !! key = Some V
  /\ (forall k, k <> key -> bag written !! k = bag instance !! k)
  /\ attrs written = attrs instance.
Proof.
  cbn zeta. rewrite (set_other_record cfg self instance V Hother).
  destruct V as [|s]; [contradiction|]. unfold bag at 1 2. cbn [i18n attrs default from_option id].
  repeat split.
  - apply lookup_insert_eq.
  - intros k Hk. now apply lookup_insert_ne.
Qed.

Lemma write_other_language_stores_in_bag_witness :
  i18n (Fields.__set__ Blog.cfg Blog.title_nl Blog.post (PyStr "dag"))
  = Some (<["title_nl" := PyStr "dag"]> (bag Blog.post)).
Proof.
  apply (write_other_language_stores_in_bag Blog.cfg Blog.title_nl Blog.post (PyStr "dag"));
    discriminate.
Defined.

(** X10: a write through any accessor whose language is the record's
    default language (the global one, or the value of the record's
    default-language field) stores the value, [None] included, in the base
    field and leaves the other attributes and the entries of the bag as
    they were; the bag is a dict afterwards. *)
Theorem write_record_default_language (cfg : Conf.t) (self : TranslatedVirtualField)
    (instance : Instance) (V : pyval)
    (Hdefault : PyStr (Fields.get_language cfg self)
                = Fields.get_default_language cfg self instance) :
  let written := Fields.__set__ cfg self instance V in
  getattr written (original_name self) = V
  /\ (forall n, n <> original_name self -> getattr written n = getattr instance n)
  /\ i18n written = Some (bag instance).
Proof.
  cbn zeta. rewrite (set_default_record cfg self instance V Hdefault).
  unfold getattr. cbn [attrs i18n]. repeat split.
  - now rewrite String.eqb_refl.
  - intros n Hn. apply String.eqb_neq in Hn. now rewrite Hn.
Qed.

Lemma write_record_default_language_witness :
  getattr (Fields.__set__ Blog.cfg Blog.title_en Samples.draft PyNone) "title" = PyNone.
Proof.
  apply (write_record_default_language Blog.cfg Blog.title_en Samples.draft PyNone).
  reflexivity.
Defined.

(** X11: writes through two accessors of different keys, neither in the
    record's default language, commute. *)
Theorem writes_to_different_keys_commute (cfg : Conf.t) (A B : TranslatedVirtualField)
    (instance : Instance) (Va Vb : pyval)
    (HA : PyStr (Fields.get_language cfg A) <> Fields.get_default_language cfg A instance)
    (HB : PyStr (Fields.get_language cfg B) <> Fields.get_default_language cfg B instance)
    (Hkeys : Utils.build_localized_fieldname (original_name A) (Fields.get_language cfg A)
             <> Utils.build_localized_fieldname (original_name B) (Fields.get_language cfg B)) :
  Fields.__set__ cfg A (Fields.__set__ cfg B instance Vb) Va
  = Fields.__set__ cfg B (Fields.__set__ cfg A instance Va) Vb.
Proof.
  rewrite (set_other_record cfg A (Fields.__set__ cfg B instance Vb))
    by (rewrite default_language_set_other; assumption).
  rewrite (set_other_record cfg B (Fields.__set__ cfg A instance Va))
    by (rewrite default_language_set_other; assumption).
  rewrite (set_other_record cfg B instance Vb HB), (set_other_record cfg A instance Va HA).
  unfold bag at 1 3. cbn [meta_i18n attrs i18n default from_option id].
  do 2 f_equal.
  destruct Va, Vb.
  - apply delete_delete.
  - now apply delete_insert_ne.
  - symmetry. apply delete_insert_ne. congruence.
  - now apply insert_insert_ne.
Qed.

Lemma writes_to_different_keys_commute_witness :
  Fields.__set__ Blog.cfg Blog.title_nl
    (Fields.__set__ Blog.cfg Samples.title_de Blog.post PyNone) (PyStr "dag")
  = Fields.__set__ Blog.cfg Samples.title_de
      (Fields.__set__ Blog.cfg Blog.title_nl Blog.post (PyStr "dag")) PyNone.
Proof.
  apply (writes_to_different_keys_commute Blog.cfg Blog.title_nl Samples.title_de Blog.post);
    discriminate.
Defined.

(** X12: a write through an accessor whose language is not the record's
    default language changes nothing of what an accessor of a fixed
    language with another key reads. *)
Theorem write_keeps_other_fixed_language (cfg : Conf.t) (A B : TranslatedVirtualField)
    (instance : Instance) (V : pyval) (L : string)
    (HA : PyStr (Fields.get_language cfg A) <> Fields.get_default_language cfg A instance)
    (HB : language B = Some L)
    (Hkeys : Utils.build_localized_fieldname (original_name B) L
             <> Utils.build_localized_fieldname (original_name A) (Fields.get_language cfg A))
    (Hloaded : i18n_deferred instance = false) :
  returned (Fields.__get__ cfg B (Some (Fields.__set__ cfg A instance V)))
  = returned (Fields.__get__ cfg B (Some instance)).
Proof.
  rewrite (get_fixed_language cfg B _ L HB (set_loaded cfg A instance V)).
  rewrite (get_fixed_language cfg B instance L HB Hloaded).
  rewrite default_language_set_other by assumption.
  unfold getattr. rewrite set_other_attrs by assumption.
  rewrite (set_other cfg A instance V HA), bag_set. unfold dict_get.
  destruct V; [rewrite lookup_delete_ne by congruence | rewrite lookup_insert_ne by congruence];
    reflexivity.
Qed.

Lemma write_keeps_other_fixed_language_witness :
  returned (Fields.__get__ Blog.cfg Samples.title_de
              (Some (Fields.__set__ Blog.cfg Blog.title_nl Blog.post (PyStr "dag"))))
  = returned (Fields.__get__ Blog.cfg Samples.title_de (Some Blog.post)).
Proof.
  apply (write_keeps_other_fixed_language Blog.cfg Blog.title_nl Samples.title_de Blog.post
           (PyStr "dag") "de"); first [reflexivity | discriminate].
Defined.

(** X13: of two writes in a row through one accessor the last one wins: the
    attributes and the bag are those of the second write alone (the
    default-language field, if any, not being the base field itself). *)
Theorem last_write_wins (cfg : Conf.t) (self : TranslatedVirtualField)
    (instance : Instance) (V1 V2 : pyval)
    (Halias : default_language_field self <> Some (original_name self)) :
  let twice := Fields.__set__ cfg self (Fields.__set__ cfg self instance V1) V2 in
  let once := Fields.__set__ cfg self instance V2 in
  (forall n, attrs twice n = attrs once n) /\ i18n twice = i18n once.
Proof.
  cbn zeta.
  destruct (decide (PyStr (Fields.get_language cfg self)
                    = Fields.get_default_language cfg self instance)) as [Hdef|Hother].
  - rewrite (set_default_record cfg self (Fields.__set__ cfg self instance V1))
      by (rewrite default_language_set_default; assumption).
    rewrite !(set_default_record cfg self instance) by assumption.
    cbn [attrs i18n]. split; [|reflexivity].
    intros n. now destruct (String.eqb n (original_name self)).
  - rewrite (set_other_record cfg self (Fields.__set__ cfg self instance V1))
      by (rewrite default_language_set_other; assumption).
    rewrite !(set_other_record cfg self instance) by assumption.
    unfold bag at 1. cbn [attrs i18n default from_option id]. split; [reflexivity|].
    f_equal.
    destruct V1, V2.
    + apply delete_delete_eq.
    + apply insert_delete_eq.
    + apply delete_insert_eq.
    + apply insert_insert_eq.
Qed.

Lemma last_write_wins_witness :
  let twice := Fields.__set__ Blog.cfg Blog.title_nl
                 (Fields.__set__ Blog.cfg Blog.title_nl Blog.post (PyStr "dag")) PyNone in
  let once := Fields.__set__ Blog.cfg Blog.title_nl Blog.post PyNone in
  (forall n, attrs twice n = attrs once n) /\ i18n twice = i18n once.
Proof.
  apply (last_write_wins Blog.cfg Blog.title_nl Blog.post (PyStr "dag") PyNone).
  discriminate.
Defined.

(** ** fields.py: names and query expressions *)

Section NamesMore.

Import PyStr.

Lemma prefix_refl (s : string) : String.prefix s s = true.
Proof.
  induction s as [|a s IH]; [reflexivity|]. cbn [String.prefix].
  destruct (ascii_dec a a); [exact IH | contradiction].
Qed.

Lemma app_nil_r_str (s : string) : s +:+ "" = s.
Proof. induction s as [|a s IH]; [reflexivity|]. rewrite app_cons. now rewrite IH. Qed.

Lemma replace_scan_skip (old new s : string) (skip : nat) :
  (String.length s <= skip)%nat -> replace_scan old new s skip = "".
Proof.
  revert skip. induction s as [|a s IH]; intros skip H; [reflexivity|].
  cbn [String.length] in H. destruct skip as [|k]; [lia|].
  cbn [replace_scan]. apply IH. lia.
Qed.

(** Replacing a non-empty string in itself leaves the replacement. *)
Lemma replace_whole (s new : string) : s <> "" -> replace s s new = new.
Proof.
  destruct s as [|a s]; [contradiction|]. intros _. unfold replace.
  cbn [replace_scan]. rewrite (prefix_refl (String a s)).
  rewrite replace_scan_skip by (cbn [String.length]; lia).
  apply app_nil_r_str.
Qed.

End NamesMore.

(** X14: the name of a virtual field splits back into the name of the
    original field and "i18n" for the current-language accessor, or the
    language of the accessor when that holds neither "-" nor "_" and is not
    "id". *)
Theorem get_field_name_splits (cfg : Conf.t) (self : TranslatedVirtualField)
    (Hclean : forall L, language self = Some L ->
                PyStr.contains_char "-" L = false
                /\ PyStr.contains_char "_" L = false
                /\ L <> "id") :
  Utils.split_translated_fieldname (Fields.get_field_name cfg self)
  = (original_name self, default "i18n" (language self)).
Proof.
  unfold Fields.get_field_name, Fields.get_language.
  destruct (language self) as [L|]; cbn [default from_option id].
  - destruct (Hclean L eq_refl) as (Hdash & Hsep & Hid). now apply split_build_clean.
  - now apply split_build_clean.
Qed.

Lemma get_field_name_splits_witness :
  Utils.split_translated_fieldname (Fields.get_field_name Blog.cfg Blog.title_nl)
  = ("title", "nl").
Proof.
  apply (get_field_name_splits Blog.cfg Blog.title_nl).
  intros L HL. injection HL as <-.
  split; [reflexivity|]. split; [reflexivity | discriminate].
Defined.

(** X15: without fallback, an accessor that has no per-record
    default-language field and whose language is the global default
    language compiles to a reference to the base field's column, whatever
    the flag; every other accessor compiles to the cast, to the original
    field's output type, of the lookup of its own language alone. *)
Theorem as_expression_without_fallback (cfg : Conf.t) (self : TranslatedVirtualField)
    (i18n_field : TranslationField) (bare_lookup : string) :
  Fields.as_expression cfg self i18n_field bare_lookup false
  = if negb (truthy_name (default_language_field self))
       && String.eqb (Fields.get_language cfg self) (Conf.GLOBAL_DEFAULT_LANGUAGE cfg)
    then Fields.as_expression cfg self i18n_field bare_lookup true
    else Fields.Cast
           (Spec.static_lookup cfg self bare_lookup (Fields.get_language cfg self))
           (Fields.output_field self).
Proof.
  unfold Fields.as_expression.
  destruct (negb _ && _) eqn:Hguard; [reflexivity|].
  cbn [negb]. now rewrite localized_lookup_static.
Qed.

(** X16: looked up under its own name (a query on the model's own table),
    an accessor without per-record default-language field whose language is
    not the global default language compiles, without fallback, to the cast
    of the extraction of its key from the column "i18n". *)
Theorem as_expression_own_name (cfg : Conf.t) (self : TranslatedVirtualField)
    (i18n_field : TranslationField)
    (Hname : name self <> "")
    (Hglobal : truthy_name (default_language_field self) = false)
    (Hother : Fields.get_language cfg self <> Conf.GLOBAL_DEFAULT_LANGUAGE cfg) :
  Fields.as_expression cfg self i18n_field (name self) false
  = Fields.Cast
      (Fields.KeyTextTransform
         (Utils.build_localized_fieldname (original_name self) (Fields.get_language cfg self))
         "i18n")
      (Fields.output_field self).
Proof.
  apply String.eqb_neq in Hother.
  unfold Fields.as_expression, Fields._localized_lookup, Fields.is_global_default.
  rewrite Hglobal, Hother. cbn [negb andb]. now rewrite replace_whole.
Qed.

Lemma as_expression_own_name_witness :
  Fields.as_expression Blog.cfg Blog.title_nl Blog.i18n_field "title_nl" false
  = Fields.Cast (Fields.KeyTextTransform "title_nl" "i18n")
      (Fields.OutFieldMaxLength "CharField" (Some 255)).
Proof.
  apply (as_expression_own_name Blog.cfg Blog.title_nl Blog.i18n_field);
    first [reflexivity | discriminate].
Defined.

(** ** translator.py: validation *)

Section ValidationMore.
Context (cfg : Conf.t) (env : Translator.Env).

Lemma check_languages_ok (languages : list string) (model : Model) :
  Translator.check_languages cfg languages model = Ok tt
  <-> Schema.available cfg languages.
Proof.
  unfold Schema.available. induction languages as [|l rest IH].
  - split; [intros _ lang H; inversion H | reflexivity].
  - cbn [Translator.check_languages]. case_bool_decide as Hl.
    + rewrite IH. split.
      * intros H lang Hin. apply elem_of_cons in Hin as [->|Hin]; auto.
      * intros H lang Hin. apply H. now right.
    + split; [discriminate|]. intros H. exfalso. apply Hl, H. now left.
Qed.

Lemma check_languages_first (pre post : list string) (lang : string) (model : Model) :
  Schema.available cfg pre ->
  lang ∉ Conf.get_available_languages cfg true ->
  Translator.check_languages cfg (pre ++ lang :: post) model
  = Raise (ImproperlyConfigured (LanguageNotAvailable lang (__name__ model))).
Proof.
  intros Hpre Hlang. induction pre as [|l pre IH]; cbn [app Translator.check_languages].
  - now rewrite bool_decide_eq_false_2.
  - rewrite bool_decide_eq_true_2 by (apply Hpre; now left).
    apply IH. intros x Hx. apply Hpre. now right.
Qed.

Lemma check_languages_raises (languages : list string) (model : Model) (e : exn) :
  Translator.check_languages cfg languages model = Raise e ->
  exists lang, e = ImproperlyConfigured (LanguageNotAvailable lang (__name__ model)).
Proof.
  induction languages as [|l rest IH]; cbn [Translator.check_languages]; [discriminate|].
  case_bool_decide as Hl; [exact IH|]. intros Heq. injection Heq as <-. eauto.
Qed.

Lemma validate_fields_first (Model : Model) (pre post : list string) (f : string)
    (field : option LocalField) :
  (forall n, n ∈ pre -> is_Some (meta_fields Model !! n)) ->
  meta_fields Model !! f = None ->
  Translator.validate_fields Model (pre ++ f :: post) field
  = Raise (ImproperlyConfigured (FieldsItemNotAField f)).
Proof.
  intros Hpre Hf. revert field.
  induction pre as [|n pre IH]; intros field; cbn [app Translator.validate_fields].
  - now rewrite Hf.
  - destruct (Hpre n) as [x ->]; [now left|]. apply IH. intros m Hm. apply Hpre. now right.
Qed.

Lemma validate_fields_ok_iff (Model : Model) (names : list string)
    (field : option LocalField) :
  (exists field', Translator.validate_fields Model names field = Ok field')
  <-> forall n, n ∈ names -> is_Some (meta_fields Model !! n).
Proof.
  split.
  - revert field. induction names as [|n names IH]; intros field [field' H] m Hm.
    + inversion Hm.
    + cbn [Translator.validate_fields] in H.
      destruct (meta_fields Model !! n) as [x|] eqn:Hn; [|discriminate].
      apply elem_of_cons in Hm as [->|Hm]; [rewrite Hn; eauto|].
      eapply IH; eauto.
  - intros H. destruct (validate_fields_ok Model names field H) as (field' & Heq & _).
    eauto.
Qed.

Lemma validate_required_items_ok (Model : Model) (i18n_field : TranslationField)
    (field : option LocalField) (items : list (string * ReqItem)) :
  Translator.validate_required_items cfg Model i18n_field field items = Ok tt
  <-> forall fieldname languages, (fieldname, languages) ∈ items ->
        fieldname ∈ fields i18n_field
        /\ exists l, languages = ItemSeq l /\ Schema.available cfg l.
Proof.
  induction items as [|[k v] items IH].
  - split; [intros _ ? ? H; inversion H | reflexivity].
  - cbn [Translator.validate_required_items]. case_bool_decide as Hk; cbn [negb].
    + destruct v as [l|c].
      * destruct (Translator.check_languages cfg l Model) as [[]|e] eqn:Hc.
        -- apply check_languages_ok in Hc. rewrite IH. split.
           ++ intros H fieldname languages Hin.
              apply elem_of_cons in Hin as [Heq|Hin]; [|now apply H].
              injection Heq as -> ->. split; [exact Hk|]. eauto.
           ++ intros H fieldname languages Hin. apply H. now right.
        -- split; [discriminate|]. intros H.
           destruct (H k (ItemSeq l)) as (_ & l' & Heq & Hav); [now left|].
           injection Heq as <-. apply (check_languages_ok l Model) in Hav. congruence.
      * split; [discriminate|]. intros H.
        destruct (H k (ItemOther c)) as (_ & l' & Heq & _); [now left|]. discriminate.
    + split.
      * destruct field; discriminate.
      * intros H. destruct (H k v) as [Hin _]; [now left|]. contradiction.
Qed.

(** The last step of [validate], on [required_languages]. *)
Lemma required_check (Model : Model) (i18n_field : TranslationField)
    (field : option LocalField) :
  (if req_truthy (required_languages i18n_field)
   then match required_languages i18n_field with
        | ReqSeq required_languages =>
            Translator.check_languages cfg required_languages Model
        | ReqDict items =>
            Translator.validate_required_items cfg Model i18n_field field items
        | ReqOther _ => Raise (ImproperlyConfigured RequiredLanguagesWrongType)
        end
   else Ok tt) = Ok tt
  <-> Schema.required_ok cfg i18n_field.
Proof.
  unfold Schema.required_ok.
  destruct (required_languages i18n_field) as [l|items|c]; cbn [req_truthy].
  - destruct l as [|x l]; [|apply check_languages_ok].
    split; [|reflexivity]. intros _ lang Hin. inversion Hin.
  - destruct items as [|x items]; [|apply validate_required_items_ok].
    split; [|reflexivity]. intros _ fieldname languages Hin. inversion Hin.
  - split; [discriminate | contradiction].
Qed.

End ValidationMore.

(** X17: [check_languages] returns normally exactly when every language of
    the list is available. *)
Theorem check_languages_accepts (cfg : Conf.t) (languages : list string) (model : Model) :
  Translator.check_languages cfg languages model = Ok tt
  <-> forall lang, lang ∈ languages -> lang ∈ Conf.get_available_languages cfg true.
Proof. apply check_languages_ok. Qed.

(** X18: [check_languages] raises [ImproperlyConfigured] for the first
    language of the list that is not available, naming it and the model. *)
Theorem check_languages_reports_first (cfg : Conf.t) (pre post : list string)
    (lang : string) (model : Model)
    (Hpre : forall l, l ∈ pre -> l ∈ Conf.get_available_languages cfg true)
    (Hlang : lang ∉ Conf.get_available_languages cfg true) :
  Translator.check_languages cfg (pre ++ lang :: post) model
  = Raise (ImproperlyConfigured (LanguageNotAvailable lang (__name__ model))).
Proof.
  induction pre as [|l pre IH]; cbn [app Translator.check_languages].
  - now rewrite bool_decide_eq_false_2.
  - rewrite bool_decide_eq_true_2 by (apply Hpre; now left).
    apply IH. intros x Hx. apply Hpre. now right.
Qed.

Lemma check_languages_reports_first_witness :
  Translator.check_languages Blog.cfg (["nl"; "de"] ++ "xx" :: ["yy"]) Samples.model
  = Raise (ImproperlyConfigured (LanguageNotAvailable "xx" "Blog")).
Proof.
  apply (check_languages_reports_first Blog.cfg ["nl"; "de"] ["yy"] "xx" Samples.model).
  - intros l Hl. apply (bool_decide_unpack _).
    apply elem_of_cons in Hl as [->|Hl]; [vm_compute; exact I|].
    apply list_elem_of_singleton in Hl as ->. vm_compute. exact I.
  - apply (bool_decide_unpack _). vm_compute. exact I.
Defined.

(** X19: [validate] raises [ImproperlyConfigured] for the first item of
    [fields] that is not a field of the model, naming it. *)
Theorem validate_reports_first_missing_field (cfg : Conf.t) (env : Translator.Env)
    (Model : Model) (i18n_field : TranslationField) (pre post : list string) (f : string)
    (Hi18n : meta_fields Model !! "i18n" = Some (I18nField i18n_field))
    (Hfields : fields i18n_field = pre ++ f :: post)
    (Hpre : forall n, n ∈ pre -> is_Some (meta_fields Model !! n))
    (Hmissing : meta_fields Model !! f = None) :
  Translator.validate cfg env Model = Raise (ImproperlyConfigured (FieldsItemNotAField f)).
Proof.
  unfold Translator.validate. rewrite Hi18n, Hfields.
  now rewrite validate_fields_first.
Qed.

Lemma validate_reports_first_missing_field_witness :
  Translator.validate Blog.cfg Blog.env Samples.model_missing_field
  = Raise (ImproperlyConfigured (FieldsItemNotAField "body")).
Proof.
  apply (validate_reports_first_missing_field Blog.cfg Blog.env Samples.model_missing_field
           Samples.i18n_missing_field ["title"] [] "body").
  - reflexivity.
  - reflexivity.
  - intros n Hn. apply list_elem_of_singleton in Hn as ->. eexists. reflexivity.
  - reflexivity.
Defined.

(** X20: when every item of [fields] is a field of the model and
    [fallback_language_field] names no field, [validate] raises
    [ImproperlyConfigured] naming the fallback-language field. *)
Theorem validate_reports_missing_fallback_field (cfg : Conf.t) (env : Translator.Env)
    (Model : Model) (i18n_field : TranslationField) (path : string)
    (Hi18n : meta_fields Model !! "i18n" = Some (I18nField i18n_field))
    (Hfields : forall n, n ∈ fields i18n_field -> is_Some (meta_fields Model !! n))
    (Hpath : fallback_language_field i18n_field = Some path)
    (Hnamed : path <> "")
    (Hmissing : Translator.get_model_field env Model path = None) :
  Translator.validate cfg env Model
  = Raise (ImproperlyConfigured (FallbackLanguageFieldMissing path)).
Proof.
  unfold Translator.validate. rewrite Hi18n.
  destruct (validate_fields_ok Model (fields i18n_field) None Hfields) as (field & -> & _).
  apply String.eqb_neq in Hnamed. unfold truthy_name. rewrite Hpath, Hnamed.
  cbn [negb default from_option id]. now rewrite Hmissing.
Qed.

Lemma validate_reports_missing_fallback_field_witness :
  Translator.validate Blog.cfg Blog.env
    {| __name__ := "Blog"; object_name := "Blog";
       meta_fields :=
         {[ "title" := ConcreteField Blog.title; "i18n" := I18nField Blog.i18n_field ]};
       class_attrs := {[ "title"; "i18n" ]};
       i18n_field_params := None |}
  = Raise (ImproperlyConfigured (FallbackLanguageFieldMissing "language_code")).
Proof.
  apply (validate_reports_missing_fallback_field Blog.cfg Blog.env _ Blog.i18n_field
           "language_code").
  - reflexivity.
  - intros n Hn. apply list_elem_of_singleton in Hn as ->. eexists. reflexivity.
  - reflexivity.
  - discriminate.
  - reflexivity.
Defined.

(** X21: [validate] returns normally exactly when every item of [fields]
    is a field of the model, the fallback-language field, if one is named,
    exists, and [required_languages] is a sequence of available languages
    or a dict from items of [fields] to such sequences. *)
Theorem validate_accepts (cfg : Conf.t) (env : Translator.Env) (Model : Model)
    (i18n_field : TranslationField)
    (Hi18n : meta_fields Model !! "i18n" = Some (I18nField i18n_field)) :
  Translator.validate cfg env Model = Ok tt
  <-> (forall n, n ∈ fields i18n_field -> is_Some (meta_fields Model !! n))
      /\ (truthy_name (fallback_language_field i18n_field) = true ->
          is_Some (Translator.get_model_field env Model
                     (default "" (fallback_language_field i18n_field))))
      /\ Schema.required_ok cfg i18n_field.
Proof.
  unfold Translator.validate. rewrite Hi18n.
  destruct (Translator.validate_fields Model (fields i18n_field) None) as [field|e] eqn:Hf.
  - assert (Hfields : forall n, n ∈ fields i18n_field -> is_Some (meta_fields Model !! n))
      by (eapply validate_fields_ok_iff; eauto).
    destruct (truthy_name (fallback_language_field i18n_field)).
    + destruct (Translator.get_model_field env Model _) as [fb|].
      * rewrite required_check. split; [intros H | now intros (_ & _ & H)].
        split; [exact Hfields|]. split; [eauto | exact H].
      * split; [discriminate|]. intros (_ & H & _). destruct (H eq_refl) as [? ?].
        discriminate.
    + rewrite required_check. split; [intros H | now intros (_ & _ & H)].
      split; [exact Hfields|]. split; [discriminate | exact H].
  - split; [discriminate|]. intros (H & _).
    apply (validate_fields_ok_iff Model (fields i18n_field) None) in H as [field' H].
    congruence.
Qed.

Lemma validate_accepts_witness :
  Translator.validate Blog.cfg Blog.env Samples.model = Ok tt
  <-> (forall n, n ∈ fields Samples.i18n_german_required ->
         is_Some (meta_fields Samples.model !! n))
      /\ (truthy_name (fallback_language_field Samples.i18n_german_required) = true ->
          is_Some (Translator.get_model_field Blog.env Samples.model
                     (default "" (fallback_language_field Samples.i18n_german_required))))
      /\ Schema.required_ok Blog.cfg Samples.i18n_german_required.
Proof.
  apply (validate_accepts Blog.cfg Blog.env Samples.model Samples.i18n_german_required).
  reflexivity.
Defined.

(** X22: schema setup leaves alone, and raises nothing for, a model that
    has no [TranslationField] named "i18n" and a model whose bag has
    [virtual_fields] off. *)
Theorem translate_model_leaves_alone (cfg : Conf.t) (env : Translator.Env) (Model : Model)
    (Hskip : Translator.get_i18n_field Model = None
             \/ exists i18n_field, Translator.get_i18n_field Model = Some i18n_field
                                   /\ virtual_fields i18n_field = false) :
  Translator.translate_model cfg env Model = (Ok tt, Model).
Proof.
  unfold Translator.translate_model, Translator.bind, Translator.get.
  destruct Hskip as [->|(i18n_field & -> & ->)]; reflexivity.
Qed.

Lemma translate_model_leaves_alone_witness :
  Translator.translate_model Blog.cfg Blog.env Samples.plain_model
  = (Ok tt, Samples.plain_model).
Proof.
  apply (translate_model_leaves_alone Blog.cfg Blog.env Samples.plain_model).
  left. reflexivity.
Defined.

(** X23: when [validate] raises, schema setup raises the same exception
    with the model class as it was: nothing is registered on a model whose
    configuration is rejected. *)
Theorem translate_model_rejected (cfg : Conf.t) (env : Translator.Env) (Model : Model)
    (i18n_field : TranslationField) (e : exn)
    (Hi18n : meta_fields Model !! "i18n" = Some (I18nField i18n_field))
    (Hvirtual : virtual_fields i18n_field = true)
    (Hinvalid : Translator.validate cfg env Model = Raise e) :
  Translator.translate_model cfg env Model = (Raise e, Model).
Proof.
  unfold Translator.translate_model, Translator.bind, Translator.get,
    Translator.get_i18n_field, Translator.lift.
  rewrite Hi18n, Hvirtual. cbn [negb]. now rewrite Hinvalid.
Qed.

Lemma translate_model_rejected_witness :
  Translator.translate_model Blog.cfg Blog.env Samples.model_missing_field
  = (Raise (ImproperlyConfigured (FieldsItemNotAField "body")), Samples.model_missing_field).
Proof.
  apply (translate_model_rejected Blog.cfg Blog.env Samples.model_missing_field
           Samples.i18n_missing_field); reflexivity.
Defined.

(** ** translator.py: adding the virtual fields *)

Section AddFields.
Context (cfg : Conf.t).

Lemma keeps_refl (M : Model) : Schema.keeps M M.
Proof. unfold Schema.keeps. repeat split; auto. Qed.

Lemma keeps_trans (M1 M2 M3 : Model) :
  Schema.keeps M1 M2 -> Schema.keeps M2 M3 -> Schema.keeps M1 M3.
Proof.
  intros (Hn & Ho & Hp & Ha & Hf) (Hn' & Ho' & Hp' & Ha' & Hf').
  unfold Schema.keeps. repeat split; try congruence.
  - set_solver.
  - intros n f Hin Hl. apply Hf'; [set_solver|]. now apply Hf.
Qed.

(** What [add_field] does: it raises and leaves the class as it is, or
    registers the new field under its name, which was not both a class
    attribute and a field. *)
Lemma add_field_cases (original_field : Field) (language dlf : option string)
    (blank null : bool) (M : Model) :
  (exists e, Translator.add_field cfg original_field language dlf blank null M
             = (Raise e, M))
  \/ (exists field,
        Fields.translated_field_factory original_field language dlf blank null = Ok field
        /\ Translator.raise_if_field_exists M (Fields.get_field_name cfg field) = Ok tt
        /\ Translator.add_field cfg original_field language dlf blank null M
           = (Ok tt, Fields.contribute_to_class cfg field M (Fields.get_field_name cfg field))).
Proof.
  unfold Translator.add_field, Translator.bind, Translator.lift, Translator.get,
    Translator.put.
  destruct (Fields.translated_field_factory _ _ _ _ _) as [field|e]; [|left; eauto].
  destruct (Translator.raise_if_field_exists M _) as [[]|e] eqn:Hr; [|left; eauto].
  right. exists field. auto.
Qed.

Lemma raise_if_field_exists_ok (M : Model) (n : string) :
  Translator.raise_if_field_exists M n = Ok tt ->
  n ∉ class_attrs M \/ meta_fields M !! n = None.
Proof.
  unfold Translator.raise_if_field_exists. case_bool_decide as Hin; cbn [negb].
  - destruct (meta_fields M !! n); [discriminate | now right].
  - now left.
Qed.

Lemma contribute_keeps (field : TranslatedVirtualField) (M : Model) (n : string) :
  n ∉ class_attrs M \/ meta_fields M !! n = None ->
  Schema.keeps M (Fields.contribute_to_class cfg field M n).
Proof.
  intros Hfree. unfold Schema.keeps, Fields.contribute_to_class.
  cbn [__name__ object_name i18n_field_params class_attrs meta_fields].
  repeat split; [apply union_subseteq_r|].
  intros m f Hin Hl. rewrite lookup_insert_ne; [exact Hl|].
  intros ->. destruct Hfree as [Hfree|Hfree]; [contradiction | congruence].
Qed.

Lemma add_field_keeps (original_field : Field) (language dlf : option string)
    (blank null : bool) (M M' : Model) (r : result unit) :
  Translator.add_field cfg original_field language dlf blank null M = (r, M') ->
  Schema.keeps M M'.
Proof.
  intros H.
  destruct (add_field_cases original_field language dlf blank null M)
    as [[e He]|(field & _ & Hfree & Hok)].
  - rewrite He in H. injection H as _ <-. apply keeps_refl.
  - rewrite Hok in H. injection H as _ <-.
    now apply contribute_keeps, raise_if_field_exists_ok.
Qed.

Lemma add_language_fields_keeps (original_field : Field) (dlf : option string)
    (required : ReqItem) (languages : list string) (M M' : Model) (r : result unit) :
  Translator.add_language_fields cfg original_field dlf required languages M = (r, M') ->
  Schema.keeps M M'.
Proof.
  revert M. induction languages as [|l rest IH]; intros M H.
  - injection H as _ <-. apply keeps_refl.
  - cbn [Translator.add_language_fields] in H.
    destruct (item_contains l required) as [b|];
      [|injection H as _ <-; apply keeps_refl].
    unfold Translator.bind in H.
    destruct (Translator.add_field cfg original_field (Some l) dlf (negb b) (negb b) M)
      as [[[]|e] M1] eqn:H1.
    + apply keeps_trans with M1; [now apply add_field_keeps in H1 | now apply IH].
    + injection H as _ <-. now apply add_field_keeps in H1.
Qed.

Lemma add_virtual_fields_for_keeps (dlf : option string) (required : ReqValue)
    (field_name : string) (M M' : Model) (r : result unit) :
  Translator.add_virtual_fields_for cfg dlf required field_name M = (r, M') ->
  Schema.keeps M M'.
Proof.
  unfold Translator.add_virtual_fields_for, Translator.bind, Translator.get.
  destruct (meta_fields M !! field_name) as [f|];
    [|intros H; injection H as _ <-; apply keeps_refl].
  destruct (Translator.add_field cfg (Translator.as_field f) None dlf true true M)
    as [[[]|e] M1] eqn:H1;
    [|intros H; injection H as _ <-; now apply add_field_keeps in H1].
  apply add_field_keeps in H1.
  destruct (truthy_name dlf).
  - unfold Translator.ret. intros H.
    apply keeps_trans with M1; [exact H1 | now apply add_language_fields_keeps in H].
  - destruct (Translator.add_field cfg (Translator.as_field f)
                (Some (Conf.get_default_language cfg)) None true true M1)
      as [[[]|e] M2] eqn:H2.
    + unfold Translator.ret. intros H. apply add_field_keeps in H2.
      apply keeps_trans with M1; [exact H1|].
      apply keeps_trans with M2; [exact H2 | now apply add_language_fields_keeps in H].
    + intros H. injection H as _ <-. apply add_field_keeps in H2.
      now apply keeps_trans with M1.
Qed.

Lemma add_virtual_fields_keeps (dlf : option string) (names : list string)
    (required : ReqValue) (M M' : Model) (r : result unit) :
  Translator.add_virtual_fields cfg dlf names required M = (r, M') ->
  Schema.keeps M M'.
Proof.
  revert M. induction names as [|n rest IH]; intros M H.
  - injection H as _ <-. apply keeps_refl.
  - cbn [Translator.add_virtual_fields] in H. unfold Translator.bind in H.
    destruct (Translator.add_virtual_fields_for cfg dlf required n M)
      as [[[]|e] M1] eqn:H1.
    + apply keeps_trans with M1; [now apply add_virtual_fields_for_keeps in H1 | now apply IH].
    + injection H as _ <-. now apply add_virtual_fields_for_keeps in H1.
Qed.

End AddFields.

(** X24: whether it returns or raises, [add_virtual_fields] keeps the names
    and parameters of the class, its class attributes and every field that
    is a class attribute: it only adds. *)
Theorem add_virtual_fields_only_adds (cfg : Conf.t) (default_language_field : option string)
    (names : list string) (required : ReqValue) (M M' : Model) (r : result unit)
    (Hrun : Translator.add_virtual_fields cfg default_language_field names required M
            = (r, M')) :
  __name__ M' = __name__ M
  /\ object_name M' = object_name M
  /\ i18n_field_params M' = i18n_field_params M
  /\ class_attrs M ⊆ class_attrs M'
  /\ forall n f, n ∈ class_attrs M -> meta_fields M !! n = Some f ->
                 meta_fields M' !! n = Some f.
Proof. exact (add_virtual_fields_keeps cfg _ _ _ _ _ _ Hrun). Qed.

Lemma add_virtual_fields_only_adds_witness :
  let M' := snd (Translator.add_virtual_fields Blog.cfg None ["title"] (ReqSeq ["de"])
                   Samples.model) in
  __name__ M' = __name__ Samples.model
  /\ object_name M' = object_name Samples.model
  /\ i18n_field_params M' = i18n_field_params Samples.model
  /\ class_attrs Samples.model ⊆ class_attrs M'
  /\ forall n f, n ∈ class_attrs Samples.model -> meta_fields Samples.model !! n = Some f ->
                 meta_fields M' !! n = Some f.
Proof.
  apply (add_virtual_fields_only_adds Blog.cfg None ["title"] (ReqSeq ["de"]) Samples.model
           _ (fst (Translator.add_virtual_fields Blog.cfg None ["title"] (ReqSeq ["de"])
                     Samples.model))).
  apply surjective_pairing.
Defined.

Section AddFieldsMore.
Context (cfg : Conf.t).

Lemma accessor_kept (M M' : Model) (n : string) (original : Field)
    (lang dlf : option string) (nullable : bool) :
  Schema.keeps M M' ->
  Schema.accessor_at M n original lang dlf nullable ->
  Schema.accessor_at M' n original lang dlf nullable.
Proof.
  intros (_ & _ & _ & Ha & Hf) (v & Hl & Hin & Hrest).
  exists v. split; [now apply Hf|]. split; [now apply Ha | exact Hrest].
Qed.

(** A field that [add_field] has added is on the class. *)
Lemma add_field_accessor (original : Field) (lang dlf : option string)
    (nullable : bool) (M M' : Model) :
  Translator.add_field cfg original lang dlf nullable nullable M = (Ok tt, M') ->
  Schema.accessor_at M'
    (Utils.build_localized_fieldname (field_name original) (default "i18n" lang))
    original lang dlf nullable.
Proof.
  intros H.
  destruct (add_field_cases cfg original lang dlf nullable nullable M)
    as [[e He]|(field & Hfac & _ & Hok)]; [congruence|].
  rewrite Hok in H. injection H as <-.
  unfold Fields.translated_field_factory in Hfac.
  assert (Hfield : field = {| original_field := original; language := lang;
                              default_language_field := dlf; blank := nullable;
                              null := nullable; name := field_name original;
                              tvf_verbose_name := verbose_name original |})
    by (destruct (field_kind original); congruence).
  subst field. unfold Fields.get_field_name, Fields.get_language, original_name.
  cbn [language original_field].
  assert (Hname : match lang with Some _ => match lang with Some l => l | None => Utils.get_language cfg end | None => "i18n" end
                  = default "i18n" lang) by now destruct lang.
  rewrite Hname. unfold Schema.accessor_at, Fields.contribute_to_class.
  cbn [meta_fields class_attrs]. eexists. split; [apply lookup_insert_eq|].
  split; [apply elem_of_union_l, elem_of_singleton; reflexivity|].
  cbn. auto 10.
Qed.

Lemma add_language_fields_accessors (original : Field) (dlf : option string)
    (required : ReqItem) (languages : list string) (M M' : Model) :
  Translator.add_language_fields cfg original dlf required languages M = (Ok tt, M') ->
  forall lang, lang ∈ languages ->
    exists is_required,
      item_contains lang required = Some is_required
      /\ Schema.accessor_at M'
           (Utils.build_localized_fieldname (field_name original) lang)
           original (Some lang) dlf (negb is_required).
Proof.
  revert M. induction languages as [|l rest IH]; intros M H lang Hin; [inversion Hin|].
  cbn [Translator.add_language_fields] in H.
  destruct (item_contains l required) as [b|] eqn:Hb; [|discriminate].
  unfold Translator.bind in H.
  destruct (Translator.add_field cfg original (Some l) dlf (negb b) (negb b) M)
    as [[[]|e] M1] eqn:H1; [|discriminate].
  apply elem_of_cons in Hin as [->|Hin]; [|now apply (IH M1)].
  exists b. split; [exact Hb|].
  apply accessor_kept with M1; [now apply add_language_fields_keeps in H|].
  now apply add_field_accessor in H1.
Qed.

End AddFieldsMore.

(** X25: when the body of [add_virtual_fields] returns for a field, the
    class has the current-language accessor of the field, the accessor of
    the global default language if no default-language field is given, and
    for every language of [get_available_languages] an accessor that may
    be blank and null exactly when the language is not required for the
    field. *)
Theorem add_virtual_fields_for_accessors (cfg : Conf.t) (dlf : option string)
    (required : ReqValue) (field_name_ : string) (f : ModelField) (M M' : Model)
    (Hfield : meta_fields M !! field_name_ = Some f)
    (Hrun : Translator.add_virtual_fields_for cfg dlf required field_name_ M = (Ok tt, M')) :
  let original := Translator.as_field f in
  let key := Utils.build_localized_fieldname (field_name original) in
  Schema.accessor_at M' (key "i18n") original None dlf true
  /\ (truthy_name dlf = false ->
      Schema.accessor_at M' (key (Conf.get_default_language cfg)) original
        (Some (Conf.get_default_language cfg)) None true)
  /\ forall lang, lang ∈ Conf.get_available_languages cfg (truthy_name dlf) ->
       exists is_required,
         item_contains lang (Schema.field_required_languages required field_name_)
         = Some is_required
         /\ Schema.accessor_at M' (key lang) original (Some lang) dlf (negb is_required).
Proof.
  cbn zeta. revert Hrun.
  unfold Translator.add_virtual_fields_for, Translator.bind, Translator.get.
  rewrite Hfield.
  destruct (Translator.add_field cfg (Translator.as_field f) None dlf true true M)
    as [[[]|e] M1] eqn:H1; [|discriminate].
  pose proof (add_field_accessor cfg _ _ _ _ _ _ H1) as Hcur.
  destruct (truthy_name dlf) eqn:Hdlf; unfold Translator.ret.
  - intros H. split; [|split; [discriminate|]].
    + apply accessor_kept with M1; [now apply add_language_fields_keeps in H | exact Hcur].
    + now apply (add_language_fields_accessors cfg _ _ _ _ _ _ H).
  - destruct (Translator.add_field cfg (Translator.as_field f)
                (Some (Conf.get_default_language cfg)) None true true M1)
      as [[[]|e] M2] eqn:H2; [|discriminate].
    intros H. pose proof (add_language_fields_keeps cfg _ _ _ _ _ _ _ H) as Hk.
    split; [|split].
    + apply accessor_kept with M2; [exact Hk|].
      apply accessor_kept with M1; [now apply add_field_keeps in H2 | exact Hcur].
    + intros _. apply accessor_kept with M2; [exact Hk|].
      now apply add_field_accessor in H2.
    + now apply (add_language_fields_accessors cfg _ _ _ _ _ _ H).
Qed.

Lemma add_virtual_fields_for_accessors_witness :
  let M' := snd (Translator.add_virtual_fields_for Blog.cfg None (ReqSeq ["de"]) "title"
                   Samples.model) in
  Schema.accessor_at M' "title_i18n" Blog.title None None true
  /\ (truthy_name None = false ->
      Schema.accessor_at M' "title_en" Blog.title (Some "en") None true)
  /\ forall lang, lang ∈ ["nl"; "de"; "fr"] ->
       exists is_required,
         item_contains lang (ItemSeq ["de"]) = Some is_required
         /\ Schema.accessor_at M' (Utils.build_localized_fieldname "title" lang) Blog.title
              (Some lang) None (negb is_required).
Proof.
  apply (add_virtual_fields_for_accessors Blog.cfg None (ReqSeq ["de"]) "title"
           (ConcreteField Blog.title) Samples.model).
  - reflexivity.
  - vm_compute. reflexivity.
Defined.

(** X26: when the class already has the current-language accessor of a
    field (its name is a class attribute and a field), the body of
    [add_virtual_fields] raises [ImproperlyConfigured] for that name and
    leaves the class as it is; so adding the virtual fields of a field a
    second time fails. *)
Theorem add_virtual_fields_for_collision (cfg : Conf.t) (dlf : option string)
    (required : ReqValue) (field_name_ : string) (f : ModelField) (M : Model)
    (Hfield : meta_fields M !! field_name_ = Some f)
    (Hsupported : field_kind (Translator.as_field f) <> KOther)
    (Hattr : Utils.build_localized_fieldname (field_name (Translator.as_field f)) "i18n"
             ∈ class_attrs M)
    (Hexists : is_Some (meta_fields M !! Utils.build_localized_fieldname
                                           (field_name (Translator.as_field f)) "i18n")) :
  Translator.add_virtual_fields_for cfg dlf required field_name_ M
  = (Raise (ImproperlyConfigured
              (FieldAlreadyExists (object_name M)
                 (Utils.build_localized_fieldname (field_name (Translator.as_field f))
                    "i18n"))),
     M).
Proof.
  unfold Translator.add_virtual_fields_for, Translator.bind, Translator.get.
  rewrite Hfield.
  unfold Translator.add_field, Translator.bind, Translator.lift, Translator.get,
    Fields.translated_field_factory.
  destruct Hexists as [x Hx].
  destruct (field_kind (Translator.as_field f)) eqn:Hk; [| |contradiction];
    unfold Translator.raise_if_field_exists, Fields.get_field_name, original_name;
    cbn [language original_field];
    now rewrite bool_decide_eq_true_2, Hx by assumption.
Qed.

Lemma add_virtual_fields_for_collision_witness :
  let M' := snd (Translator.add_virtual_fields_for Blog.cfg None (ReqSeq ["de"]) "title"
                   Samples.model) in
  Translator.add_virtual_fields_for Blog.cfg None (ReqSeq ["de"]) "title" M'
  = (Raise (ImproperlyConfigured (FieldAlreadyExists "Blog" "title_i18n")), M').
Proof.
  apply (add_virtual_fields_for_collision Blog.cfg None (ReqSeq ["de"]) "title"
           (ConcreteField Blog.title)).
  - vm_compute. reflexivity.
  - discriminate.
  - apply (bool_decide_unpack _). vm_compute. exact I.
  - eexists. vm_compute. reflexivity.
Defined.

(** X27: for a field that is neither a [CharField] nor a [TextField] the
    body of [add_virtual_fields] raises [ImproperlyConfigured] naming the
    class of the field, and adds nothing. *)
Theorem add_virtual_fields_for_unsupported (cfg : Conf.t) (dlf : option string)
    (required : ReqValue) (field_name_ : string) (f : ModelField) (M : Model)
    (Hfield : meta_fields M !! field_name_ = Some f)
    (Hkind : field_kind (Translator.as_field f) = KOther) :
  Translator.add_virtual_fields_for cfg dlf required field_name_ M
  = (Raise (ImproperlyConfigured (UnsupportedField (field_class (Translator.as_field f)))),
     M).
Proof.
  unfold Translator.add_virtual_fields_for, Translator.bind, Translator.get.
  rewrite Hfield.
  unfold Translator.add_field, Translator.bind, Translator.lift,
    Fields.translated_field_factory.
  now rewrite Hkind.
Qed.

Lemma add_virtual_fields_for_unsupported_witness :
  Translator.add_virtual_fields_for Blog.cfg None (ReqSeq []) "i18n" Samples.model
  = (Raise (ImproperlyConfigured (UnsupportedField "TranslationField")), Samples.model).
Proof.
  apply (add_virtual_fields_for_unsupported Blog.cfg None (ReqSeq []) "i18n"
           (I18nField Samples.i18n_german_required) Samples.model); reflexivity.
Defined.



(** ** Two consequences for users of the accessors *)

(** X29: when the base field of a loaded record is truthy, the
    current-language accessor reads a truthy value, whatever the bag
    holds. *)
Theorem read_current_language_truthy (cfg : Conf.t) (self : TranslatedVirtualField)
    (instance : Instance) (v : pyval)
    (Hcurrent : language self = None)
    (Hloaded : i18n_deferred instance = false)
    (Hbase : truthy (getattr instance (original_name self)) = true)
    (Hread : returned (Fields.__get__ cfg self (Some instance)) = Ok v) :
  truthy v = true.
Proof.
  rewrite get_current_language in Hread by assumption.
  match type of Hread with Ok ?x = Ok _ => assert (E : x = v) by congruence end.
  rewrite <- E.
  match goal with
  | |- truthy (Spec.first_truthy_hit ?b ?bv ?d ?m ?c) = true =>
      destruct (first_truthy_hit_provenance b bv d m c) as [Hv|[Ht _]]
  end; [now rewrite Hv | exact Ht].
Qed.

Lemma read_current_language_truthy_witness : truthy (PyStr "hallo") = true.
Proof.
  apply (read_current_language_truthy Blog.cfg Blog.title_i18n Blog.post (PyStr "hallo"));
    vm_compute; reflexivity.
Defined.

(** X30: two (field, language) pairs whose language codes hold neither "-"
    nor "_" and are not "id" have the same storage key only if they are the
    same pair. *)
Theorem build_localized_fieldname_injective (F1 L1 F2 L2 : string)
    (Hclean1 : PyStr.contains_char "-" L1 = false
               /\ PyStr.contains_char "_" L1 = false /\ L1 <> "id")
    (Hclean2 : PyStr.contains_char "-" L2 = false
               /\ PyStr.contains_char "_" L2 = false /\ L2 <> "id")
    (Hkey : Utils.build_localized_fieldname F1 L1 = Utils.build_localized_fieldname F2 L2) :
  F1 = F2 /\ L1 = L2.
Proof.
  destruct Hclean1 as (Hd1 & Hs1 & Hi1), Hclean2 as (Hd2 & Hs2 & Hi2).
  pose proof (split_build_clean F1 L1 Hd1 Hs1 Hi1) as H1.
  pose proof (split_build_clean F2 L2 Hd2 Hs2 Hi2) as H2.
  rewrite Hkey, H2 in H1. now injection H1.
Qed.

Lemma build_localized_fieldname_injective_witness : "title" = "title" /\ "nl" = "nl".
Proof.
  apply (build_localized_fieldname_injective "title" "nl" "title" "nl");
    first [reflexivity | split; [reflexivity | split; [reflexivity | discriminate]]].
Defined.
